(** * Windowed peak detection: the pipeline object [Wpd]

    A shallow embedding of
    [src/algorithms/peakDetection/windowedPeakDetection.py].

    The class [Wpd] is a composition root: its constructor creates queues,
    plottable lists and five worker objects, stores references to them in
    attributes of [self], and its methods delegate to those objects.  What
    the file proves is therefore about object identity, attribute lookup and
    the order of calls, so the model is a small Python-like object store:

    - a heap of objects addressed by location (allocation appends);
    - the instance dictionary of a [Wpd] object as a finite map from
      attribute names to values;
    - a state-and-exception monad in which the methods are written
      statement by statement;
    - a trace that records every method call made on a collaborator. *)

From stdpp Require Import base option list gmap strings.

Open Scope string_scope.
Open Scope list_scope.

(** ** Values, exceptions, classes of workers *)

Abbreviation loc := nat.

(** A Python value as far as this class handles one: a reference to an
    object, or a method of the class bound to an instance (what
    [self.start] evaluates to). *)
Inductive Value : Type :=
| VRef (l : loc)
| VBoundMethod (self : loc) (name : string).

Inductive Exn : Type :=
| AttributeError (attr : string)
| KeyError (key : string).

(** The classes whose instances serve as workers.  Three are named by the
    source; the smoothing window and the peak scoring function are whatever
    the registries of [Constants] hold under the given type tag. *)
Inductive StageClass : Type :=
| WpdPreProcessor
| PeakDetector
| WpdPostProcessor
| Registered (name : string).

Inductive Res (A : Type) : Type :=
| Ok (a : A)
| Raise (e : Exn).
Arguments Ok {A} a.
Arguments Raise {A} e.

(** The names the class statement of [Wpd] binds: its methods. *)
Definition Wpd_methods : list string :=
  [ "__init__"; "start"; "stop"; "isDone"; "isRunning"; "getRawData";
    "getProcessedDataSize"; "getSmoothedData"; "getPeakyData"; "getPeaks";
    "getSteps" ].

Section Pipeline.

(** The collaborators of [Wpd] live in modules that are imported but are
    not part of the file: their data and behaviour are parameters. *)
Context {Item Params Observer StageState : Type}.

(** What a worker's constructor and its four lifecycle methods do to the
    worker's own state, by class (the dispatch is duck-typed). *)
Variable stage_init : StageClass → Params → list Value → StageState.
Variable stage_start : StageClass → StageState → StageState.
Variable stage_stop : StageClass → StageState → StageState.
Variable stage_isDone : StageClass → StageState → bool.
Variable stage_isRunning : StageClass → StageState → bool.

(** [Constants.SMOOTHING_WINDOWS] and [Constants.PEAKY_FUNCTIONS]. *)
Variable SMOOTHING_WINDOWS : gmap string StageClass.
Variable PEAKY_FUNCTIONS : gmap string StageClass.

(** ** The object store *)

Inductive Obj : Type :=
| OQueue (items : list Item)
| OPlottableList (items : list Item) (subscribers : list (Observer * string))
| OStage (cls : StageClass) (params : Params) (args : list Value)
         (st : StageState)
| OWpd (dict : gmap string Value).

(** Calls made on collaborators, in the order they happen. *)
Inductive Method : Type :=
| MStart
| MStop
| MIsDone
| MIsRunning
| MSubscribe (observer : Observer) (topic : string)
| MSize
| MLen.

Inductive Event : Type :=
| ECall (target : loc) (m : Method).

Record World : Type := mkWorld {
  heap : list Obj;
  trace : list Event
}.

(** ** State and exception monad *)

Definition M (A : Type) : Type := World → Res A * World.

Definition ret {A} (a : A) : M A := λ σ, (Ok a, σ).

Definition bind {A B} (c : M A) (k : A → M B) : M B :=
  λ σ, match c σ with
       | (Ok a, σ') => k a σ'
       | (Raise e, σ') => (Raise e, σ')
       end.

Definition raise {A} (e : Exn) : M A := λ σ, (Raise e, σ).

#[global] Instance M_ret : MRet M := @ret.
#[global] Instance M_bind : MBind M := λ A B k c, bind c k.

Definition alloc (o : Obj) : M Value :=
  λ σ, (Ok (VRef (length (heap σ))),
        mkWorld (heap σ ++ [o]) (trace σ)).

Definition store (l : loc) (o : Obj) : M unit :=
  λ σ, (Ok tt, mkWorld (<[l := o]> (heap σ)) (trace σ)).

(** ** Attribute access on a [Wpd] instance

    [self.name] looks in the instance dictionary first, then in the
    class, which binds only the methods; [Wpd] defines no [__getattr__]
    hook, so any other name raises [AttributeError]. *)
Definition getattr (self : loc) (name : string) : M Value :=
  λ σ, match heap σ !! self with
       | Some (OWpd dict) =>
           match dict !! name with
           | Some v => (Ok v, σ)
           | None =>
               if bool_decide (name ∈ Wpd_methods)
               then (Ok (VBoundMethod self name), σ)
               else (Raise (AttributeError name), σ)
           end
       | _ => (Raise (AttributeError name), σ)
       end.

(** [self.name = v] *)
Definition setattr (self : loc) (name : string) (v : Value) : M unit :=
  λ σ, match heap σ !! self with
       | Some (OWpd dict) => store self (OWpd (<[name := v]> dict)) σ
       | _ => (Raise (AttributeError name), σ)
       end.

(** ** Collaborators *)

(** Modelled from the spec: [src/infra/queue.py] is missing.  A queue is
    the FIFO sequence of the items it holds; [Queue()] creates an empty
    one and [size()] is the instantaneous count. *)
Definition Queue_new : M Value := alloc (OQueue []).

(** Modelled from the spec: [Queue.size()], the number of items the queue
    holds at the moment of the call. *)
Definition Queue_size (q : Value) : M nat :=
  λ σ, match q with
       | VRef l =>
           match heap σ !! l with
           | Some (OQueue items) =>
               (Ok (length items),
                mkWorld (heap σ) (trace σ ++ [ECall l MSize]))
           | _ => (Raise (AttributeError "size"), σ)
           end
       | VBoundMethod _ _ => (Raise (AttributeError "size"), σ)
       end.

(** Modelled from the spec: [src/infra/plottableList.py] is missing.  An
    observable sequence holds its values in insertion order and the
    observers registered on it, each under a topic, in subscription
    order; [subscribe(observer, topic)] registers one more and [len] is
    the number of values. *)
Definition PlottableList_new : M Value := alloc (OPlottableList [] []).

(** Modelled from the spec: [PlottableList.subscribe(observer, topic)]
    registers the observer under the topic, after those already there. *)
Definition PlottableList_subscribe (p : Value) (observer : Observer)
    (topic : string) : M unit :=
  λ σ, match p with
       | VRef l =>
           match heap σ !! l with
           | Some (OPlottableList items subs) =>
               (Ok tt,
                mkWorld (<[l := OPlottableList items
                                  (subs ++ [(observer, topic)])]> (heap σ))
                        (trace σ ++ [ECall l (MSubscribe observer topic)]))
           | _ => (Raise (AttributeError "subscribe"), σ)
           end
       | VBoundMethod _ _ => (Raise (AttributeError "subscribe"), σ)
       end.

(** Modelled from the spec: [len] of a plottable list, the number of
    values appended so far. *)
Definition PlottableList_len (p : Value) : M nat :=
  λ σ, match p with
       | VRef l =>
           match heap σ !! l with
           | Some (OPlottableList items _) =>
               (Ok (length items),
                mkWorld (heap σ) (trace σ ++ [ECall l MLen]))
           | _ => (Raise (AttributeError "__len__"), σ)
           end
       | VBoundMethod _ _ => (Raise (AttributeError "__len__"), σ)
       end.

(** Modelled from the spec: the worker classes ([preProcessing.py],
    [peakDetector.py], [postProcessing.py] and the registered windows and
    scoring functions) are missing.  A worker holds the references it was
    constructed with and a lifecycle state of its own; each lifecycle
    method acts on that state only. *)
Definition Stage_new (cls : StageClass) (params : Params)
    (args : list Value) : M Value :=
  alloc (OStage cls params args (stage_init cls params args)).

(** Modelled from the spec: a lifecycle command ([start()], [stop()])
    sent to a worker; it returns [None]. *)
Definition Stage_command (name : string) (m : Method)
    (f : StageClass → StageState → StageState) (s : Value) : M unit :=
  λ σ, match s with
       | VRef l =>
           match heap σ !! l with
           | Some (OStage cls params args st) =>
               (Ok tt,
                mkWorld (<[l := OStage cls params args (f cls st)]> (heap σ))
                        (trace σ ++ [ECall l m]))
           | _ => (Raise (AttributeError name), σ)
           end
       | VBoundMethod _ _ => (Raise (AttributeError name), σ)
       end.

(** Modelled from the spec: a status question ([isDone()],
    [isRunning()]) put to a worker; it returns a boolean and leaves the
    worker as it is. *)
Definition Stage_query (name : string) (m : Method)
    (f : StageClass → StageState → bool) (s : Value) : M bool :=
  λ σ, match s with
       | VRef l =>
           match heap σ !! l with
           | Some (OStage cls _ _ st) =>
               (Ok (f cls st),
                mkWorld (heap σ) (trace σ ++ [ECall l m]))
           | _ => (Raise (AttributeError name), σ)
           end
       | VBoundMethod _ _ => (Raise (AttributeError name), σ)
       end.

Definition Stage_start : Value → M unit :=
  Stage_command "start" MStart stage_start.
Definition Stage_stop : Value → M unit :=
  Stage_command "stop" MStop stage_stop.
Definition Stage_isDone : Value → M bool :=
  Stage_query "isDone" MIsDone stage_isDone.
Definition Stage_isRunning : Value → M bool :=
  Stage_query "isRunning" MIsRunning stage_isRunning.

(** [registry[key]] on one of the two dictionaries of [Constants]. *)
Definition subscript (registry : gmap string StageClass) (key : string)
    : M StageClass :=
  match registry !! key with
  | Some cls => mret cls
  | None => raise (KeyError key)
  end.

(** [x and y] and [x or y] on booleans: the right operand is evaluated
    only when the left one does not decide the result. *)
Definition py_and (x y : M bool) : M bool :=
  x ≫= λ b : bool, if b then y else mret b.

Definition py_or (x y : M bool) : M bool :=
  x ≫= λ b : bool, if b then mret b else y.

(** ** The class [Wpd] *)

Definition Wpd_init (self : loc) (queue : Value)
    (preProcessingParams : Params)
    (windowType : string) (windowParams : Params)
    (peakFuncType : string) (peakFuncParams : Params)
    (peakDetectorParams postProcessingParams : Params)
    (uiCallbackHandler : Observer) : M unit :=
  setattr self "inputQueue" queue;;
  q ← Queue_new; setattr self "dataQueue" q;;
  q ← Queue_new; setattr self "smoothedDataQueue" q;;
  q ← Queue_new; setattr self "peakScores" q;;
  q ← Queue_new; setattr self "peaks" q;;

  p ← PlottableList_new; setattr self "data" p;;
  p ← PlottableList_new; setattr self "smoothedData" p;;
  p ← PlottableList_new; setattr self "peakScoreData" p;;
  p ← PlottableList_new; setattr self "peakData" p;;
  p ← PlottableList_new; setattr self "confirmedPeaks" p;;

  p ← getattr self "data";
  PlottableList_subscribe p uiCallbackHandler "raw_data";;
  p ← getattr self "smoothedData";
  PlottableList_subscribe p uiCallbackHandler "smooth_data";;
  p ← getattr self "peakScoreData";
  PlottableList_subscribe p uiCallbackHandler "peak_score_data";;
  p ← getattr self "peakData";
  PlottableList_subscribe p uiCallbackHandler "peak_data";;
  p ← getattr self "confirmedPeaks";
  PlottableList_subscribe p uiCallbackHandler "confirmed_peak_data";;

  a ← getattr self "inputQueue";
  b ← getattr self "data";
  c ← getattr self "dataQueue";
  s ← Stage_new WpdPreProcessor preProcessingParams [a; b; c];
  setattr self "preProcessing" s;;

  cls ← subscript SMOOTHING_WINDOWS windowType;
  a ← getattr self "dataQueue";
  b ← getattr self "smoothedDataQueue";
  s ← Stage_new cls windowParams [a; b];
  setattr self "window" s;;

  cls ← subscript PEAKY_FUNCTIONS peakFuncType;
  a ← getattr self "smoothedDataQueue";
  b ← getattr self "smoothedData";
  c ← getattr self "peakScores";
  s ← Stage_new cls peakFuncParams [a; b; c];
  setattr self "peakScorer" s;;

  a ← getattr self "peakScores";
  b ← getattr self "peakScoreData";
  c ← getattr self "peaks";
  s ← Stage_new PeakDetector peakDetectorParams [a; b; c];
  setattr self "peakDetection" s;;

  a ← getattr self "peaks";
  b ← getattr self "peakData";
  c ← getattr self "confirmedPeaks";
  s ← Stage_new WpdPostProcessor postProcessingParams [a; b; c];
  setattr self "postProcessing" s.

(** The call [Wpd(...)]: a new instance with an empty dictionary is
    passed to [__init__] and is the value of the call. *)
Definition Wpd_new (queue : Value)
    (preProcessingParams : Params)
    (windowType : string) (windowParams : Params)
    (peakFuncType : string) (peakFuncParams : Params)
    (peakDetectorParams postProcessingParams : Params)
    (uiCallbackHandler : Observer) : M Value :=
  λ σ, let self := length (heap σ) in
       (_ ← alloc (OWpd ∅);
        Wpd_init self queue preProcessingParams windowType windowParams
          peakFuncType peakFuncParams peakDetectorParams
          postProcessingParams uiCallbackHandler;;
        mret (VRef self)) σ.

Definition Wpd_start (self : loc) : M unit :=
  s ← getattr self "preProcessing"; Stage_start s;;
  s ← getattr self "window"; Stage_start s;;
  s ← getattr self "peakScorer"; Stage_start s;;
  s ← getattr self "peakDetection"; Stage_start s;;
  s ← getattr self "postProcessing"; Stage_start s.

Definition Wpd_stop (self : loc) : M unit :=
  s ← getattr self "preProcessing"; Stage_stop s;;
  s ← getattr self "window"; Stage_stop s;;
  s ← getattr self "peakScorer"; Stage_stop s;;
  s ← getattr self "peakDetection"; Stage_stop s;;
  s ← getattr self "postProcessing"; Stage_stop s.

Definition Wpd_isDone (self : loc) : M bool :=
  py_and (s ← getattr self "preProcessing"; Stage_isDone s)
 (py_and (s ← getattr self "window"; Stage_isDone s)
 (py_and (s ← getattr self "peakScorer"; Stage_isDone s)
 (py_and (s ← getattr self "peakDetection"; Stage_isDone s)
         (s ← getattr self "postProcessing"; Stage_isDone s)))).

Definition Wpd_isRunning (self : loc) : M bool :=
  py_or (s ← getattr self "preProcessing"; Stage_isRunning s)
 (py_or (s ← getattr self "window"; Stage_isRunning s)
 (py_or (s ← getattr self "peakScorer"; Stage_isRunning s)
 (py_or (s ← getattr self "peakDetection"; Stage_isRunning s)
        (s ← getattr self "postProcessing"; Stage_isRunning s)))).

Definition Wpd_getRawData (self : loc) : M Value :=
  getattr self "data".

Definition Wpd_getProcessedDataSize (self : loc) : M nat :=
  q ← getattr self "dataQueue"; Queue_size q.

Definition Wpd_getSmoothedData (self : loc) : M Value :=
  getattr self "smoothedData".

Definition Wpd_getPeakyData (self : loc) : M Value :=
  getattr self "peakyData".

Definition Wpd_getPeaks (self : loc) : M Value :=
  getattr self "confirmedPeaks".

Definition Wpd_getSteps (self : loc) : M nat :=
  p ← getattr self "confirmedPeaks"; PlottableList_len p.

(** ** The shape of a constructed pipeline

    The fourteen objects a constructor call creates besides the instance,
    and the value it was given as the input queue. *)
Record Layout : Type := mkLayout {
  inputQueue : Value;
  dataQueue : loc;
  smoothedDataQueue : loc;
  peakScores : loc;
  peaks : loc;
  data : loc;
  smoothedData : loc;
  peakScoreData : loc;
  peakData : loc;
  confirmedPeaks : loc;
  preProcessing : loc;
  window : loc;
  peakScorer : loc;
  peakDetection : loc;
  postProcessing : loc
}.

(** The instance dictionary after [__init__], in assignment order. *)
Definition Wpd_dict (L : Layout) : gmap string Value :=
  <["postProcessing" := VRef (postProcessing L)]>
 (<["peakDetection" := VRef (peakDetection L)]>
 (<["peakScorer" := VRef (peakScorer L)]>
 (<["window" := VRef (window L)]>
 (<["preProcessing" := VRef (preProcessing L)]>
 (<["confirmedPeaks" := VRef (confirmedPeaks L)]>
 (<["peakData" := VRef (peakData L)]>
 (<["peakScoreData" := VRef (peakScoreData L)]>
 (<["smoothedData" := VRef (smoothedData L)]>
 (<["data" := VRef (data L)]>
 (<["peaks" := VRef (peaks L)]>
 (<["peakScores" := VRef (peakScores L)]>
 (<["smoothedDataQueue" := VRef (smoothedDataQueue L)]>
 (<["dataQueue" := VRef (dataQueue L)]>
 (<["inputQueue" := inputQueue L]> ∅)))))))))))))).

Definition queues (L : Layout) : list loc :=
  [dataQueue L; smoothedDataQueue L; peakScores L; peaks L].

Definition sequences (L : Layout) : list loc :=
  [data L; smoothedData L; peakScoreData L; peakData L; confirmedPeaks L].

Definition stages (L : Layout) : list loc :=
  [preProcessing L; window L; peakScorer L; peakDetection L;
   postProcessing L].

Definition is_queue (σ : World) (l : loc) : Prop :=
  ∃ items, heap σ !! l = Some (OQueue items).

Definition is_sequence (σ : World) (l : loc) (observer : Observer)
    (topic : string) : Prop :=
  ∃ items subs,
    heap σ !! l = Some (OPlottableList items subs) ∧
    (observer, topic) ∈ subs.

Definition is_stage (σ : World) (l : loc) (args : list Value) : Prop :=
  ∃ cls params st, heap σ !! l = Some (OStage cls params args st).

(** [wpd_inv σ self L ui]: in the store [σ], [self] is a [Wpd] instance
    whose attributes are bound as the constructor binds them, to pairwise
    distinct objects of the right kinds, wired and subscribed as the
    constructor wires and subscribes them.  The contents of the queues
    and sequences and the states of the workers are left free. *)
Record wpd_inv (σ : World) (self : loc) (L : Layout) (ui : Observer)
    : Prop := mkInv {
  inv_self : heap σ !! self = Some (OWpd (Wpd_dict L));
  inv_dataQueue : is_queue σ (dataQueue L);
  inv_smoothedDataQueue : is_queue σ (smoothedDataQueue L);
  inv_peakScores : is_queue σ (peakScores L);
  inv_peaks : is_queue σ (peaks L);
  inv_data : is_sequence σ (data L) ui "raw_data";
  inv_smoothedData : is_sequence σ (smoothedData L) ui "smooth_data";
  inv_peakScoreData :
    is_sequence σ (peakScoreData L) ui "peak_score_data";
  inv_peakData : is_sequence σ (peakData L) ui "peak_data";
  inv_confirmedPeaks :
    is_sequence σ (confirmedPeaks L) ui "confirmed_peak_data";
  inv_preProcessing :
    is_stage σ (preProcessing L)
      [inputQueue L; VRef (data L); VRef (dataQueue L)];
  inv_window :
    is_stage σ (window L)
      [VRef (dataQueue L); VRef (smoothedDataQueue L)];
  inv_peakScorer :
    is_stage σ (peakScorer L)
      [VRef (smoothedDataQueue L); VRef (smoothedData L);
       VRef (peakScores L)];
  inv_peakDetection :
    is_stage σ (peakDetection L)
      [VRef (peakScores L); VRef (peakScoreData L); VRef (peaks L)];
  inv_postProcessing :
    is_stage σ (postProcessing L)
      [VRef (peaks L); VRef (peakData L); VRef (confirmedPeaks L)];
  inv_distinct : NoDup (self :: queues L ++ sequences L ++ stages L)
}.

(** The state of the worker at [l], when there is one. *)
Definition stage_state (σ : World) (l : loc) : option StageState :=
  match heap σ !! l with
  | Some (OStage _ _ _ st) => Some st
  | _ => None
  end.

Definition stage_class (σ : World) (l : loc) : option StageClass :=
  match heap σ !! l with
  | Some (OStage cls _ _ _) => Some cls
  | _ => None
  end.

(** What a worker reports, as seen from outside. *)
Definition reports (f : StageClass → StageState → bool) (σ : World)
    (l : loc) : option bool :=
  match heap σ !! l with
  | Some (OStage cls _ _ st) => Some (f cls st)
  | _ => None
  end.

(** Modelled from the spec: the constructors of the workers are missing.
    Each takes its parameter bundle, then what it reads from, and last
    what it writes to; a plottable list it only publishes to stands in
    between.  So what a worker reads from is the first reference. *)
Definition stage_input (σ : World) (l : loc) : option Value :=
  match heap σ !! l with
  | Some (OStage _ _ args _) => head args
  | _ => None
  end.

(** Modelled from the spec: what a worker writes to is the last reference
    its constructor was given. *)
Definition stage_output (σ : World) (l : loc) : option Value :=
  match heap σ !! l with
  | Some (OStage _ _ args _) => last args
  | _ => None
  end.

(** The state the worker at [l] has once [f] has run on it. *)
Definition stage_after (f : StageClass → StageState → StageState)
    (σ : World) (l : loc) : option StageState :=
  match heap σ !! l with
  | Some (OStage cls _ _ st) => Some (f cls st)
  | _ => None
  end.

Definition target (e : Event) : loc :=
  match e with ECall l _ => l end.

Definition method (e : Event) : Method :=
  match e with ECall _ m => m end.

(** ** What a constructor call produces

    Allocation appends, so in a store of [n] objects the instance is
    object [n] and the objects [__init__] creates follow in the order of
    the source. *)
Definition Wpd_layout (n : loc) (queue : Value) : Layout :=
  {| inputQueue := queue;
     dataQueue := n + 1;
     smoothedDataQueue := n + 2;
     peakScores := n + 3;
     peaks := n + 4;
     data := n + 5;
     smoothedData := n + 6;
     peakScoreData := n + 7;
     peakData := n + 8;
     confirmedPeaks := n + 9;
     preProcessing := n + 10;
     window := n + 11;
     peakScorer := n + 12;
     peakDetection := n + 13;
     postProcessing := n + 14 |}.

Definition new_stage (cls : StageClass) (params : Params)
    (args : list Value) : Obj :=
  OStage cls params args (stage_init cls params args).

Definition Wpd_objects (L : Layout)
    (preProcessingParams : Params)
    (windowClass : StageClass) (windowParams : Params)
    (peakFuncClass : StageClass) (peakFuncParams : Params)
    (peakDetectorParams postProcessingParams : Params)
    (ui : Observer) : list Obj :=
  [ OWpd (Wpd_dict L);
    OQueue []; OQueue []; OQueue []; OQueue [];
    OPlottableList [] [(ui, "raw_data")];
    OPlottableList [] [(ui, "smooth_data")];
    OPlottableList [] [(ui, "peak_score_data")];
    OPlottableList [] [(ui, "peak_data")];
    OPlottableList [] [(ui, "confirmed_peak_data")];
    new_stage WpdPreProcessor preProcessingParams
      [inputQueue L; VRef (data L); VRef (dataQueue L)];
    new_stage windowClass windowParams
      [VRef (dataQueue L); VRef (smoothedDataQueue L)];
    new_stage peakFuncClass peakFuncParams
      [VRef (smoothedDataQueue L); VRef (smoothedData L);
       VRef (peakScores L)];
    new_stage PeakDetector peakDetectorParams
      [VRef (peakScores L); VRef (peakScoreData L); VRef (peaks L)];
    new_stage WpdPostProcessor postProcessingParams
      [VRef (peaks L); VRef (peakData L); VRef (confirmedPeaks L)] ].

Definition Wpd_subscriptions (L : Layout) (ui : Observer) : list Event :=
  [ ECall (data L) (MSubscribe ui "raw_data");
    ECall (smoothedData L) (MSubscribe ui "smooth_data");
    ECall (peakScoreData L) (MSubscribe ui "peak_score_data");
    ECall (peakData L) (MSubscribe ui "peak_data");
    ECall (confirmedPeaks L) (MSubscribe ui "confirmed_peak_data") ].

(** The workers a chain of [and] (stop at the first [false]) or [or] (stop
    at the first [true]) gets to ask, given what each would answer. *)
Fixpoint asked (stop_at : bool) (answers : list (loc * bool)) : list loc :=
  match answers with
  | [] => []
  | (s, b) :: rest =>
      s :: (if bool_decide (b = stop_at) then [] else asked stop_at rest)
  end.

(** The five workers form one chain from the input queue to the sequence
    of confirmed peaks: each reads from what the one before writes to. *)
Record in_pipeline_order (σ : World) (L : Layout) : Prop := mkOrder {
  ord_source : stage_input σ (preProcessing L) = Some (inputQueue L);
  ord_pre_out : stage_output σ (preProcessing L) = Some (VRef (dataQueue L));
  ord_window_in : stage_input σ (window L) = Some (VRef (dataQueue L));
  ord_window_out :
    stage_output σ (window L) = Some (VRef (smoothedDataQueue L));
  ord_scorer_in :
    stage_input σ (peakScorer L) = Some (VRef (smoothedDataQueue L));
  ord_scorer_out : stage_output σ (peakScorer L) = Some (VRef (peakScores L));
  ord_detector_in :
    stage_input σ (peakDetection L) = Some (VRef (peakScores L));
  ord_detector_out : stage_output σ (peakDetection L) = Some (VRef (peaks L));
  ord_post_in : stage_input σ (postProcessing L) = Some (VRef (peaks L));
  ord_sink :
    stage_output σ (postProcessing L) = Some (VRef (confirmedPeaks L))
}.

(** One event per worker, in the order of the chain. *)
Definition to_each (m : Method) (L : Layout) : list Event :=
  [ ECall (preProcessing L) m; ECall (window L) m; ECall (peakScorer L) m;
    ECall (peakDetection L) m; ECall (postProcessing L) m ].

(** ** What a call creates *)

Inductive Kind : Type := KQueue | KSequence | KStage | KWpd.

Definition kind (o : Obj) : Kind :=
  match o with
  | OQueue _ => KQueue
  | OPlottableList _ _ => KSequence
  | OStage _ _ _ _ => KStage
  | OWpd _ => KWpd
  end.

(** [s] is an object of kind [k] in [σ'] that did not exist in [σ]. *)
Definition created (σ σ' : World) (k : Kind) (s : loc) : Prop :=
  heap σ !! s = None ∧ kind <$> heap σ' !! s = Some k.

(** ** Sequences of lifecycle calls *)

Inductive Call : Type := CStart | CStop | CIsDone | CIsRunning.

(** One call made by a client; the client goes on with the store the
    call leaves, whether it returned or raised. *)
Definition do_call (self : loc) (c : Call) (σ : World) : World :=
  match c with
  | CStart => snd (Wpd_start self σ)
  | CStop => snd (Wpd_stop self σ)
  | CIsDone => snd (Wpd_isDone self σ)
  | CIsRunning => snd (Wpd_isRunning self σ)
  end.

Definition do_calls (self : loc) (cs : list Call) (σ : World) : World :=
  foldl (λ σ c, do_call self c σ) σ cs.

(** What lifecycle calls leave behind: objects other than the workers are
    as they were, and every call made went to a worker. *)
Record framed (L : Layout) (σ σ' : World) : Prop := mkFramed {
  fr_others : ∀ s, s ∉ stages L → heap σ' !! s = heap σ !! s;
  fr_calls :
    ∃ new, trace σ' = trace σ ++ new ∧
           Forall (λ e, target e ∈ stages L) new
}.

(** ** What the workers and producers may do in between

    Modelled from the spec: the workers run concurrently with the
    client.  They move items through the queues, append to the
    sequences, may accept further subscriptions, and change their own
    state; the client may create further objects.  No object is replaced
    by one of another kind, no worker is rewired, and a [Wpd] instance is
    not touched. *)
Definition evolves (o o' : Obj) : Prop :=
  match o, o' with
  | OQueue _, OQueue _ => True
  | OPlottableList _ subs, OPlottableList _ subs' => subs ⊆ subs'
  | OStage cls params args _, OStage cls' params' args' _ =>
      cls = cls' ∧ params = params' ∧ args = args'
  | OWpd dict, OWpd dict' => dict = dict'
  | _, _ => False
  end.

(** Modelled from the spec: one step of everything that is not a method
    of [Wpd]; objects evolve in place and new ones may appear. *)
Definition env_step (σ σ' : World) : Prop :=
  ∃ old new, heap σ' = old ++ new ∧ Forall2 evolves (heap σ) old.


(** ** Further vocabulary *)

(** The attribute assignments of [__init__], in the order of the source. *)
Definition Wpd_bindings (L : Layout) : list (string * Value) :=
  [ ("inputQueue", inputQueue L);
    ("dataQueue", VRef (dataQueue L));
    ("smoothedDataQueue", VRef (smoothedDataQueue L));
    ("peakScores", VRef (peakScores L));
    ("peaks", VRef (peaks L));
    ("data", VRef (data L));
    ("smoothedData", VRef (smoothedData L));
    ("peakScoreData", VRef (peakScoreData L));
    ("peakData", VRef (peakData L));
    ("confirmedPeaks", VRef (confirmedPeaks L));
    ("preProcessing", VRef (preProcessing L));
    ("window", VRef (window L));
    ("peakScorer", VRef (peakScorer L));
    ("peakDetection", VRef (peakDetection L));
    ("postProcessing", VRef (postProcessing L)) ].


(** The dictionary a sequence of assignments [self.name = v] builds. *)
Definition dict_of (bs : list (string * Value)) : gmap string Value :=
  foldl (λ dict b, <[b.1 := b.2]> dict) ∅ bs.

(** The store objects appended by a constructor call that got as far as
    building [workers] (none, or the first ones in the order of the
    source) before it stopped: the instance with the attributes assigned
    until then, the four queues, the five subscribed sequences and those
    workers. *)
Definition Wpd_partial (L : Layout) (ui : Observer) (workers : list Obj)
    : list Obj :=
  [ OWpd (dict_of (take (10 + length workers) (Wpd_bindings L)));
    OQueue []; OQueue []; OQueue []; OQueue [];
    OPlottableList [] [(ui, "raw_data")];
    OPlottableList [] [(ui, "smooth_data")];
    OPlottableList [] [(ui, "peak_score_data")];
    OPlottableList [] [(ui, "peak_data")];
    OPlottableList [] [(ui, "confirmed_peak_data")] ] ++ workers.


(** What a sequence of lifecycle calls on the pipeline makes of the state
    of one of its workers: [start()] and [stop()] are passed on, the two
    questions change nothing. *)
Definition after_call (cls : StageClass) (c : Call) (st : StageState)
    : StageState :=
  match c with
  | CStart => stage_start cls st
  | CStop => stage_stop cls st
  | CIsDone | CIsRunning => st
  end.

Definition after_calls (cls : StageClass) (cs : list Call)
    (st : StageState) : StageState :=
  foldl (λ st c, after_call cls c st) st cs.

(** [start()] and [stop()] are the commands among the calls a worker can
    receive. *)
Definition is_command (m : Method) : bool :=
  match m with
  | MStart | MStop => true
  | MIsDone | MIsRunning | MSubscribe _ _ | MSize | MLen => false
  end.

(** The commands one lifecycle call of the pipeline sends. *)
Definition command_events (L : Layout) (c : Call) : list Event :=
  match c with
  | CStart => to_each MStart L
  | CStop => to_each MStop L
  | CIsDone | CIsRunning => []
  end.

End Pipeline.

Arguments mkWorld {Item Params Observer StageState} heap trace.

(** ** A concrete worker lifecycle

    Modelled from the spec: the lifecycle every worker class implements is
    not in the source file.  A worker is [Idle], [Running], [Stopping] or
    [Stopped], and independently has a done flag; [start] moves an idle or
    stopped worker to [Running], [stop] asks a running one to halt,
    [isRunning] holds in the [Running] state of a worker that is not done,
    and [isDone] reads the flag. *)
Module Lifecycle.

(** Modelled from the spec: the four states of a worker. *)
Inductive Status : Type := Idle | Running | Stopping | Stopped.

(** Modelled from the spec: the lifecycle state and the done flag. *)
Record State : Type := mkState { status : Status; done : bool }.

(** Modelled from the spec: a new worker is idle and not done. *)
Definition init (_ : StageClass) (_ : unit) (_ : list Value) : State :=
  mkState Idle false.

(** Modelled from the spec: [start()] takes [Idle] or [Stopped] to
    [Running]. *)
Definition start (_ : StageClass) (s : State) : State :=
  match status s with
  | Idle | Stopped => mkState Running (done s)
  | Running | Stopping => s
  end.

(** Modelled from the spec: [stop()] requests a halt; the worker stops
    after the iteration in flight. *)
Definition stop (_ : StageClass) (s : State) : State :=
  match status s with
  | Running => mkState Stopping (done s)
  | Idle | Stopping | Stopped => s
  end.

(** Modelled from the spec: [isDone()] is the done flag. *)
Definition isDone (_ : StageClass) (s : State) : bool := done s.

(** Modelled from the spec: [isRunning()] holds while [Running] and not
    yet done. *)
Definition isRunning (_ : StageClass) (s : State) : bool :=
  match status s with
  | Running => negb (done s)
  | Idle | Stopping | Stopped => false
  end.

(** A registry with one smoothing window and one scoring function. *)
Definition windows : gmap string StageClass :=
  {[ "centered_moving_avg" := Registered "CenteredMovingAvg" ]}.
Definition scorers : gmap string StageClass :=
  {[ "mean_diff" := Registered "MeanDiff" ]}.

(** A store that holds the input queue with three samples waiting. *)
Definition W : Type := @World nat unit string State.

Definition world0 : W := mkWorld [OQueue [1; 2; 3]] [].

Definition construct : W → Res Value * W :=
  Wpd_new init windows scorers (VRef 0) tt "centered_moving_avg" tt
    "mean_diff" tt tt tt "ui".

Definition layout1 : Layout := Wpd_layout 1 (VRef 0).

(** The store after the constructor call, after a further [start()], and
    later on: the PreProcessor has produced two items the Window has not
    consumed yet, and one peak has been confirmed. *)
Definition world1 : W := snd (construct world0).

Definition world2 : W := snd (Wpd_start start 1 world1).

Definition world3 : W :=
  mkWorld
    (<[2 := OQueue [10; 20]]>
       (<[10 := OPlottableList [20] [("ui", "confirmed_peak_data")]]>
          (heap world2)))
    (trace world2).



End Lifecycle.

(** * Facts *)

Section Facts.

#[local] Set Default Proof Using "Type".

Context {Item Params Observer StageState : Type}.
Variable stage_init : StageClass → Params → list Value → StageState.
Variable stage_start : StageClass → StageState → StageState.
Variable stage_stop : StageClass → StageState → StageState.
Variable stage_isDone : StageClass → StageState → bool.
Variable stage_isRunning : StageClass → StageState → bool.
Variable SMOOTHING_WINDOWS : gmap string StageClass.
Variable PEAKY_FUNCTIONS : gmap string StageClass.

Local Abbreviation Obj := (@Obj Item Params Observer StageState).
Local Abbreviation World := (@World Item Params Observer StageState).
Local Abbreviation Event := (@Event Observer).
Local Abbreviation M := (@M Item Params Observer StageState).

Implicit Types (h l : list Obj) (t : list Event) (σ : World).
Implicit Types (d : gmap string Value) (v : Value).

(** ** Running the monad *)

Lemma bind_ok {A B} (c : M A) (k : A → M B) σ a σ' :
  c σ = (Ok a, σ') → (c ≫= k) σ = k a σ'.
Proof. intros E. unfold mbind, M_bind, bind. by rewrite E. Qed.

Lemma bind_raise {A B} (c : M A) (k : A → M B) σ e σ' :
  c σ = (Raise e, σ') → (c ≫= k) σ = (Raise e, σ').
Proof. intros E. unfold mbind, M_bind, bind. by rewrite E. Qed.

(** ** Steps on a store seen as an old part and a new part

    Locations of the new part are offsets from the length of the old
    one. *)

Lemma lookup_off h l n k : n = length h → (h ++ l) !! (n + k) = l !! k.
Proof.
  intros ->. rewrite lookup_app_r by lia. f_equal. lia.
Qed.

Lemma insert_off h l n k (o : Obj) :
  n = length h → <[n + k := o]> (h ++ l) = h ++ list_insert k o l.
Proof. intros ->. apply insert_app_r. Qed.

Lemma lookup_off0 h l n : n = length h → (h ++ l) !! n = l !! 0.
Proof.
  intros Hn. rewrite <- (Nat.add_0_r n). by apply lookup_off.
Qed.

Lemma insert_off0 h l n (o : Obj) :
  n = length h → <[n := o]> (h ++ l) = h ++ list_insert 0 o l.
Proof.
  intros Hn. rewrite <- (Nat.add_0_r n) at 1. by apply insert_off.
Qed.

Lemma alloc_off h l t o n k l' :
  n = length h → length l = k → l ++ [o] = l' →
  alloc o (mkWorld (h ++ l) t)
  = (Ok (VRef (n + k)), mkWorld (h ++ l') t).
Proof.
  intros -> <- <-. unfold alloc. cbn.
  by rewrite length_app, <- (assoc_L (++)).
Qed.

Lemma setattr_off h l t n d name v :
  n = length h →
  setattr n name v (mkWorld (h ++ OWpd d :: l) t)
  = (Ok tt, mkWorld (h ++ OWpd (<[name := v]> d) :: l) t).
Proof.
  intros Hn. unfold setattr, store. cbn.
  rewrite (lookup_off0 _ _ _ Hn). cbn.
  by rewrite (insert_off0 _ _ _ _ Hn).
Qed.

Lemma getattr_off h l t n d name v :
  n = length h →
  d !! name = Some v →
  getattr n name (mkWorld (h ++ OWpd d :: l) t)
  = (Ok v, mkWorld (h ++ OWpd d :: l) t).
Proof.
  intros Hn E. unfold getattr. cbn.
  rewrite (lookup_off0 _ _ _ Hn). cbn. by rewrite E.
Qed.

Lemma subscribe_off h l t n k items subs (ui : Observer) topic l' :
  n = length h →
  l !! k = Some (OPlottableList items subs) →
  list_insert k (OPlottableList items (subs ++ [(ui, topic)])) l = l' →
  PlottableList_subscribe (VRef (n + k)) ui topic (mkWorld (h ++ l) t)
  = (Ok tt,
     mkWorld (h ++ l') (t ++ [ECall (n + k) (MSubscribe ui topic)])).
Proof.
  intros Hn E <-. unfold PlottableList_subscribe. cbn.
  rewrite (lookup_off _ _ _ _ Hn), E.
  by rewrite (insert_off _ _ _ _ _ Hn).
Qed.

Lemma subscript_ok (registry : gmap string StageClass) key cls σ :
  registry !! key = Some cls →
  subscript registry key σ = (Ok cls, σ).
Proof. intros E. unfold subscript. by rewrite E. Qed.

Ltac dict_lookup :=
  repeat (rewrite lookup_insert_ne by done); apply lookup_insert_eq.

Lemma list_insert_O (x y : Obj) l : list_insert 0 x (y :: l) = x :: l.
Proof. reflexivity. Qed.

Lemma list_insert_S k (x y : Obj) l :
  list_insert (S k) x (y :: l) = y :: list_insert k x l.
Proof. reflexivity. Qed.

Ltac norm :=
  repeat rewrite list_insert_S; rewrite ?list_insert_O;
  cbv beta iota delta [length app]; reflexivity.

Ltac step :=
  erewrite bind_ok;
  [ | first
        [ eapply setattr_off; eassumption
        | eapply alloc_off; [ eassumption | norm | norm ]
        | eapply getattr_off; [ eassumption | dict_lookup ]
        | eapply subscribe_off; [ eassumption | reflexivity | norm ]
        | eapply subscript_ok; eassumption ] ].

(** ** The constructor, run *)

Lemma Wpd_init_exec h t n queue p1 wt p2 ft p3 p4 p5 (ui : Observer)
    wc fc :
  n = length h →
  SMOOTHING_WINDOWS !! wt = Some wc →
  PEAKY_FUNCTIONS !! ft = Some fc →
  Wpd_init stage_init SMOOTHING_WINDOWS PEAKY_FUNCTIONS
    n queue p1 wt p2 ft p3 p4 p5 ui (mkWorld (h ++ [OWpd ∅]) t)
  = (Ok tt,
     mkWorld
       (h ++ Wpd_objects stage_init (Wpd_layout n queue)
               p1 wc p2 fc p3 p4 p5 ui)
       (t ++ Wpd_subscriptions (Wpd_layout n queue) ui)).
Proof.
  intros Hn Hw Hf.
  unfold Wpd_init, Queue_new, PlottableList_new, Stage_new.
  repeat step.
  erewrite setattr_off by eassumption.
  unfold Wpd_subscriptions.
  by rewrite <- !(assoc_L (++)).
Qed.

Lemma Wpd_new_exec σ queue p1 wt p2 ft p3 p4 p5 (ui : Observer) wc fc :
  SMOOTHING_WINDOWS !! wt = Some wc →
  PEAKY_FUNCTIONS !! ft = Some fc →
  Wpd_new stage_init SMOOTHING_WINDOWS PEAKY_FUNCTIONS
    queue p1 wt p2 ft p3 p4 p5 ui σ
  = (Ok (VRef (length (heap σ))),
     mkWorld
       (heap σ ++ Wpd_objects stage_init
                    (Wpd_layout (length (heap σ)) queue)
                    p1 wc p2 fc p3 p4 p5 ui)
       (trace σ ++ Wpd_subscriptions (Wpd_layout (length (heap σ)) queue)
                     ui)).
Proof.
  intros Hw Hf. destruct σ as [h t]. unfold Wpd_new. cbn [heap trace].
  erewrite bind_ok; [ | by unfold alloc ]. cbn [heap trace].
  erewrite bind_ok; [ | by apply Wpd_init_exec ].
  reflexivity.
Qed.




(** ** Steps on any store *)

Lemma getattr_ok σ self d name v :
  heap σ !! self = Some (OWpd d) →
  d !! name = Some v →
  getattr self name σ = (Ok v, σ).
Proof. intros E1 E2. unfold getattr. by rewrite E1, E2. Qed.

Lemma Stage_command_ok name m f σ s cls p a st :
  heap σ !! s = Some (OStage cls p a st) →
  Stage_command name m f (VRef s) σ
  = (Ok tt,
     mkWorld (<[s := OStage cls p a (f cls st)]> (heap σ))
             (trace σ ++ [ECall s m])).
Proof. intros E. unfold Stage_command. by rewrite E. Qed.

Lemma Stage_query_ok name m f σ s cls p a st :
  heap σ !! s = Some (OStage cls p a st) →
  Stage_query name m f (VRef s) σ
  = (Ok (f cls st), mkWorld (heap σ) (trace σ ++ [ECall s m])).
Proof. intros E. unfold Stage_query. by rewrite E. Qed.

Lemma lookup_insert_hit h s (o o' : Obj) :
  h !! s = Some o' → <[s := o]> h !! s = Some o.
Proof.
  intros E. apply list_lookup_insert_eq. by eapply lookup_lt_Some.
Qed.

(** ** The environment relation *)

#[local] Instance evolves_refl :
  Reflexive (@evolves Item Params Observer StageState).
Proof.
  intros [ | | | ]; cbn; [ done | by intros x | by repeat split | done ].
Qed.

#[local] Instance evolves_trans :
  Transitive (@evolves Item Params Observer StageState).
Proof.
  intros [ | | | ] [ | | | ] [ | | | ]; cbn; try done.
  - intros ? ?. by etrans.
  - by intros (-> & -> & ->) (-> & -> & ->).
  - by intros -> ->.
Qed.

#[local] Instance env_step_refl :
  Reflexive (@env_step Item Params Observer StageState).
Proof.
  intros σ. exists (heap σ), []. by rewrite (right_id_L [] (++)).
Qed.

#[local] Instance env_step_trans :
  Transitive (@env_step Item Params Observer StageState).
Proof.
  intros σ1 σ2 σ3 (old2 & new2 & E2 & H12) (old3 & new3 & E3 & H23).
  rewrite E2 in H23.
  apply Forall2_app_inv_l in H23 as (old & mid & H & _ & ->).
  exists old, (mid ++ new3). split.
  - by rewrite E3, (assoc_L (++)).
  - by etrans.
Qed.

Lemma env_step_insert h t s o o' :
  h !! s = Some o → evolves o o' →
  env_step (mkWorld h t) (mkWorld (<[s := o']> h) t).
Proof.
  intros E Ho. exists (<[s := o']> h), []. cbn [heap].
  split; [ by rewrite (right_id_L [] (++)) | ].
  rewrite <- (list_insert_id h s o E) at 1.
  by apply Forall2_insert.
Qed.

Lemma env_step_trace h t t' : env_step (mkWorld h t) (mkWorld h t').
Proof. exists h, []. by rewrite (right_id_L [] (++)). Qed.

Lemma env_step_alloc h t t' new :
  env_step (mkWorld h t) (mkWorld (h ++ new) t').
Proof. by exists h, new. Qed.

Lemma env_step_lookup σ σ' s o :
  env_step σ σ' → heap σ !! s = Some o →
  ∃ o', heap σ' !! s = Some o' ∧ evolves o o'.
Proof.
  intros (old & new & -> & H) E.
  destruct (Forall2_lookup_l _ _ _ _ _ H E) as (o' & E' & Ho).
  exists o'. split; [ by apply lookup_app_l_Some | done ].
Qed.

Lemma is_queue_env σ σ' s : env_step σ σ' → is_queue σ s → is_queue σ' s.
Proof.
  intros H [items E].
  destruct (env_step_lookup _ _ _ _ H E) as ([ | | | ] & E' & Ho);
    cbn in Ho; try done.
  by eexists.
Qed.

Lemma is_sequence_env σ σ' s (ui : Observer) topic :
  env_step σ σ' → is_sequence σ s ui topic → is_sequence σ' s ui topic.
Proof.
  intros H (items & subs & E & Hin).
  destruct (env_step_lookup _ _ _ _ H E) as ([ | | | ] & E' & Ho);
    cbn in Ho; try done.
  do 2 eexists. split; [ done | by apply Ho ].
Qed.

Lemma is_stage_env σ σ' s args :
  env_step σ σ' → is_stage σ s args → is_stage σ' s args.
Proof.
  intros H (cls & p & st & E).
  destruct (env_step_lookup _ _ _ _ H E) as ([ | | | ] & E' & Ho);
    cbn in Ho; try done.
  destruct Ho as (-> & -> & ->). by do 3 eexists.
Qed.

(** The invariant does not depend on what the queues and sequences hold
    or on the states of the workers. *)
Lemma wpd_inv_env σ σ' self L (ui : Observer) :
  env_step σ σ' → wpd_inv σ self L ui → wpd_inv σ' self L ui.
Proof.
  intros H [].
  constructor;
    eauto using is_queue_env, is_sequence_env, is_stage_env.
  destruct (env_step_lookup _ _ _ _ H inv_self0)
    as ([ | | | ] & E' & Ho); cbn in Ho; try done.
  by subst.
Qed.

(** ** What the invariant gives *)

Ltac attr_lookup := unfold Wpd_dict; dict_lookup.

Lemma Wpd_dict_peakyData L : Wpd_dict L !! "peakyData" = None.
Proof.
  unfold Wpd_dict. repeat (rewrite lookup_insert_ne by done).
  apply lookup_empty.
Qed.

Lemma inv_NoDup_stages σ self L (ui : Observer) :
  wpd_inv σ self L ui → NoDup (stages L).
Proof.
  intros [].
  apply NoDup_cons_1_2, NoDup_app in inv_distinct0 as (_ & _ & H).
  by apply NoDup_app in H as (_ & _ & H).
Qed.

Lemma inv_NoDup_sequences σ self L (ui : Observer) :
  wpd_inv σ self L ui → NoDup (sequences L).
Proof.
  intros [].
  apply NoDup_cons_1_2, NoDup_app in inv_distinct0 as (_ & _ & H).
  by apply NoDup_app in H as (H & _ & _).
Qed.

Ltac split_NoDup H :=
  repeat match type of H with
         | NoDup (_ :: _) =>
             let Hn := fresh "Hne" in
             apply NoDup_cons in H as [Hn H];
             repeat (apply not_elem_of_cons in Hn as [? Hn])
         end.

Ltac heap_lookup :=
  cbn [heap];
  repeat (rewrite list_lookup_insert_ne by congruence);
  first [ eassumption
        | eapply lookup_insert_hit; heap_lookup ].

Ltac step_inv :=
  erewrite bind_ok;
  [ | first
        [ eapply getattr_ok; [ heap_lookup | attr_lookup ]
        | eapply Stage_command_ok; heap_lookup
        | eapply Stage_query_ok; heap_lookup ] ].

(** ** One command sent to every worker *)

Lemma broadcast_exec name m f σ self L (ui : Observer) :
  wpd_inv σ self L ui →
  ∃ σ',
    (s ← getattr self "preProcessing"; Stage_command name m f s;;
     s ← getattr self "window"; Stage_command name m f s;;
     s ← getattr self "peakScorer"; Stage_command name m f s;;
     s ← getattr self "peakDetection"; Stage_command name m f s;;
     s ← getattr self "postProcessing"; Stage_command name m f s) σ
    = (Ok tt, σ') ∧
    trace σ' = trace σ ++ ((λ s, ECall s m) <$> stages L) ∧
    (∀ s, s ∈ stages L →
          is_Some (stage_state σ' s) ∧
          stage_state σ' s = stage_after f σ s) ∧
    (∀ s, s ∉ stages L → heap σ' !! s = heap σ !! s) ∧
    env_step σ σ'.
Proof.
  intros Hinv. pose proof (inv_NoDup_stages _ _ _ _ Hinv) as Hnd.
  destruct Hinv. destruct σ as [h t].
  destruct inv_preProcessing0 as (c1 & q1 & st1 & E1).
  destruct inv_window0 as (c2 & q2 & st2 & E2).
  destruct inv_peakScorer0 as (c3 & q3 & st3 & E3).
  destruct inv_peakDetection0 as (c4 & q4 & st4 & E4).
  destruct inv_postProcessing0 as (c5 & q5 & st5 & E5).
  cbn [heap trace] in *.
  unfold stages in *. split_NoDup Hnd.
  eexists. split; [ | split; [ | split; [ | split ] ] ].
  - do 9 step_inv. eapply Stage_command_ok. heap_lookup.
  - cbn [trace fmap list_fmap]. by rewrite <- !(assoc_L (++)).
  - intros s Hs. unfold stage_state, stage_after. cbn [heap].
    repeat (apply elem_of_cons in Hs as [-> | Hs]);
      [ .. | by apply elem_of_nil in Hs ];
      repeat (rewrite list_lookup_insert_ne by congruence);
      (erewrite lookup_insert_hit by heap_lookup);
      first [ rewrite E1 | rewrite E2 | rewrite E3 | rewrite E4
            | rewrite E5 ];
      by eauto.
  - intros s Hs. cbn [heap].
    repeat (apply not_elem_of_cons in Hs as [? Hs]).
    by repeat (rewrite list_lookup_insert_ne by congruence).
  - repeat (etrans; [ | eapply env_step_insert; [ heap_lookup | done ] ]).
    apply env_step_trace.
Qed.

(** ** One question put to the workers in turn *)

Lemma query_step name m f σ self d attr s b :
  heap σ !! self = Some (OWpd d) →
  d !! attr = Some (VRef s) →
  reports f σ s = Some b →
  (getattr self attr ≫= Stage_query name m f) σ
  = (Ok b, mkWorld (heap σ) (trace σ ++ [ECall s m])).
Proof.
  intros E1 E2 E3. erewrite bind_ok by by eapply getattr_ok.
  unfold reports in E3. unfold Stage_query.
  destruct (heap σ !! s) as [ [ | | | ] | ]; try done. congruence.
Qed.

Lemma inv_reports f σ self L (ui : Observer) :
  wpd_inv σ self L ui →
  ∃ r1 r2 r3 r4 r5,
    reports f σ (preProcessing L) = Some r1 ∧
    reports f σ (window L) = Some r2 ∧
    reports f σ (peakScorer L) = Some r3 ∧
    reports f σ (peakDetection L) = Some r4 ∧
    reports f σ (postProcessing L) = Some r5.
Proof.
  intros [].
  destruct inv_preProcessing0 as (c1 & q1 & st1 & E1).
  destruct inv_window0 as (c2 & q2 & st2 & E2).
  destruct inv_peakScorer0 as (c3 & q3 & st3 & E3).
  destruct inv_peakDetection0 as (c4 & q4 & st4 & E4).
  destruct inv_postProcessing0 as (c5 & q5 & st5 & E5).
  unfold reports. rewrite E1, E2, E3, E4, E5. by do 5 eexists.
Qed.

Ltac ask_step :=
  eapply query_step;
  [ cbn [heap]; eassumption | attr_lookup | eassumption ].

Ltac ask := erewrite bind_ok; [ | ask_step ]; cbn [heap trace].
Ltac ask_last := etrans; [ ask_step | ]; cbn [heap trace].

Lemma and_exec name m f σ self L (ui : Observer) r1 r2 r3 r4 r5 :
  wpd_inv σ self L ui →
  reports f σ (preProcessing L) = Some r1 →
  reports f σ (window L) = Some r2 →
  reports f σ (peakScorer L) = Some r3 →
  reports f σ (peakDetection L) = Some r4 →
  reports f σ (postProcessing L) = Some r5 →
  py_and (s ← getattr self "preProcessing"; Stage_query name m f s)
 (py_and (s ← getattr self "window"; Stage_query name m f s)
 (py_and (s ← getattr self "peakScorer"; Stage_query name m f s)
 (py_and (s ← getattr self "peakDetection"; Stage_query name m f s)
         (s ← getattr self "postProcessing"; Stage_query name m f s)))) σ
  = (Ok (r1 && r2 && r3 && r4 && r5),
     mkWorld (heap σ)
       (trace σ ++
        ((λ s, ECall s m) <$>
         asked false
           [(preProcessing L, r1); (window L, r2); (peakScorer L, r3);
            (peakDetection L, r4); (postProcessing L, r5)]))).
Proof.
  intros [] R1 R2 R3 R4 R5. destruct σ as [h t]. cbn [heap trace] in *.
  unfold py_and.
  ask. destruct r1; [ | by cbn ].
  ask. destruct r2; [ | by rewrite <- (assoc_L (++)) ].
  ask. destruct r3; [ | by rewrite <- !(assoc_L (++)) ].
  ask. destruct r4; [ | by rewrite <- !(assoc_L (++)) ].
  ask_last. destruct r5; by rewrite <- !(assoc_L (++)).
Qed.

Lemma or_exec name m f σ self L (ui : Observer) r1 r2 r3 r4 r5 :
  wpd_inv σ self L ui →
  reports f σ (preProcessing L) = Some r1 →
  reports f σ (window L) = Some r2 →
  reports f σ (peakScorer L) = Some r3 →
  reports f σ (peakDetection L) = Some r4 →
  reports f σ (postProcessing L) = Some r5 →
  py_or (s ← getattr self "preProcessing"; Stage_query name m f s)
 (py_or (s ← getattr self "window"; Stage_query name m f s)
 (py_or (s ← getattr self "peakScorer"; Stage_query name m f s)
 (py_or (s ← getattr self "peakDetection"; Stage_query name m f s)
        (s ← getattr self "postProcessing"; Stage_query name m f s)))) σ
  = (Ok (r1 || r2 || r3 || r4 || r5),
     mkWorld (heap σ)
       (trace σ ++
        ((λ s, ECall s m) <$>
         asked true
           [(preProcessing L, r1); (window L, r2); (peakScorer L, r3);
            (peakDetection L, r4); (postProcessing L, r5)]))).
Proof.
  intros [] R1 R2 R3 R4 R5. destruct σ as [h t]. cbn [heap trace] in *.
  unfold py_or.
  ask. destruct r1; [ by cbn | ].
  ask. destruct r2; [ by rewrite <- (assoc_L (++)) | ].
  ask. destruct r3; [ by rewrite <- !(assoc_L (++)) | ].
  ask. destruct r4; [ by rewrite <- !(assoc_L (++)) | ].
  ask_last. destruct r5; by rewrite <- !(assoc_L (++)).
Qed.

Lemma asked_subseteq stop_at answers :
  asked stop_at answers ⊆ answers.*1.
Proof.
  induction answers as [ | [s b] rest IH ]; [ done | ].
  cbn. intros x Hx. apply elem_of_cons in Hx as [-> | Hx]; [ by left | ].
  right. case_bool_decide; [ by apply elem_of_nil in Hx | by apply IH ].
Qed.

(** ** Lifecycle status *)

(** C1. On every constructed pipeline [isDone()] returns, and what it
    returns is the conjunction of what the five workers report: it is
    [True] exactly when PreProcessor, Window, PeakScorer, PeakDetector and
    PostProcessor all report done.  The call changes no object; it asks the
    workers in pipeline order up to the first that is not done. *)
Theorem Wpd_isDone_conjunction σ self L (ui : Observer) :
  wpd_inv σ self L ui →
  ∃ r1 r2 r3 r4 r5 σ',
    reports stage_isDone σ (preProcessing L) = Some r1 ∧
    reports stage_isDone σ (window L) = Some r2 ∧
    reports stage_isDone σ (peakScorer L) = Some r3 ∧
    reports stage_isDone σ (peakDetection L) = Some r4 ∧
    reports stage_isDone σ (postProcessing L) = Some r5 ∧
    Wpd_isDone stage_isDone self σ
    = (Ok (r1 && r2 && r3 && r4 && r5), σ') ∧
    (r1 && r2 && r3 && r4 && r5 = true ↔
     r1 = true ∧ r2 = true ∧ r3 = true ∧ r4 = true ∧ r5 = true) ∧
    heap σ' = heap σ ∧
    trace σ' = trace σ ++
      ((λ s, ECall s MIsDone) <$>
       asked false
         [(preProcessing L, r1); (window L, r2); (peakScorer L, r3);
          (peakDetection L, r4); (postProcessing L, r5)]).
Proof.
  intros Hinv.
  destruct (inv_reports stage_isDone _ _ _ _ Hinv)
    as (r1 & r2 & r3 & r4 & r5 & R1 & R2 & R3 & R4 & R5).
  exists r1, r2, r3, r4, r5. eexists.
  repeat (split; [ done | ]).
  split; [ by eapply and_exec | ].
  split; [ | done ].
  rewrite !andb_true_iff. tauto.
Qed.

(** C2. On every constructed pipeline [isRunning()] returns, and what it
    returns is the disjunction of what the five workers report: it is
    [True] exactly when at least one of them reports running, hence
    [False] as soon as none does.  The call changes no object; it asks the
    workers in pipeline order up to the first that is running. *)
Theorem Wpd_isRunning_disjunction σ self L (ui : Observer) :
  wpd_inv σ self L ui →
  ∃ r1 r2 r3 r4 r5 σ',
    reports stage_isRunning σ (preProcessing L) = Some r1 ∧
    reports stage_isRunning σ (window L) = Some r2 ∧
    reports stage_isRunning σ (peakScorer L) = Some r3 ∧
    reports stage_isRunning σ (peakDetection L) = Some r4 ∧
    reports stage_isRunning σ (postProcessing L) = Some r5 ∧
    Wpd_isRunning stage_isRunning self σ
    = (Ok (r1 || r2 || r3 || r4 || r5), σ') ∧
    (r1 || r2 || r3 || r4 || r5 = true ↔
     r1 = true ∨ r2 = true ∨ r3 = true ∨ r4 = true ∨ r5 = true) ∧
    (r1 = false ∧ r2 = false ∧ r3 = false ∧ r4 = false ∧ r5 = false →
     r1 || r2 || r3 || r4 || r5 = false) ∧
    heap σ' = heap σ ∧
    trace σ' = trace σ ++
      ((λ s, ECall s MIsRunning) <$>
       asked true
         [(preProcessing L, r1); (window L, r2); (peakScorer L, r3);
          (peakDetection L, r4); (postProcessing L, r5)]).
Proof.
  intros Hinv.
  destruct (inv_reports stage_isRunning _ _ _ _ Hinv)
    as (r1 & r2 & r3 & r4 & r5 & R1 & R2 & R3 & R4 & R5).
  exists r1, r2, r3, r4, r5. eexists.
  repeat (split; [ done | ]).
  split; [ by eapply or_exec | ].
  split; [ rewrite !orb_true_iff; tauto | ].
  split; [ | done ].
  by intros (-> & -> & -> & -> & ->).
Qed.

(** ** Lifecycle commands *)

Lemma inv_pipeline_order σ self L (ui : Observer) :
  wpd_inv σ self L ui → in_pipeline_order σ L.
Proof.
  intros [].
  destruct inv_preProcessing0 as (c1 & q1 & st1 & E1).
  destruct inv_window0 as (c2 & q2 & st2 & E2).
  destruct inv_peakScorer0 as (c3 & q3 & st3 & E3).
  destruct inv_peakDetection0 as (c4 & q4 & st4 & E4).
  destruct inv_postProcessing0 as (c5 & q5 & st5 & E5).
  constructor; unfold stage_input, stage_output;
    by rewrite ?E1, ?E2, ?E3, ?E4, ?E5.
Qed.

Lemma drop_old_trace (t new : list Event) : drop (length t) (t ++ new) = new.
Proof. by rewrite drop_app_length. Qed.

(** C8. On every constructed pipeline [start()] returns after calling
    [start()] once on each of the five workers, PreProcessor first, then
    Window, PeakScorer, PeakDetector and PostProcessor, which is the order
    of the chain from source to sink; the five workers are distinct, each
    has been started exactly once, and nothing else has changed.  There is
    no guard: a second call starts each of them once more. *)
Theorem Wpd_start_each_once_in_order σ self L (ui : Observer) :
  wpd_inv σ self L ui →
  ∃ σ1 σ2,
    Wpd_start stage_start self σ = (Ok tt, σ1) ∧
    trace σ1 = trace σ ++ to_each MStart L ∧
    NoDup (stages L) ∧
    in_pipeline_order σ L ∧
    (∀ s, s ∈ stages L →
          is_Some (stage_state σ1 s) ∧
          stage_state σ1 s = stage_after stage_start σ s) ∧
    (∀ s, s ∉ stages L → heap σ1 !! s = heap σ !! s) ∧
    Wpd_start stage_start self σ1 = (Ok tt, σ2) ∧
    trace σ2 = trace σ ++ to_each MStart L ++ to_each MStart L ∧
    (∀ s, s ∈ stages L →
          stage_state σ2 s = stage_after stage_start σ1 s).
Proof.
  intros Hinv.
  destruct (broadcast_exec "start" MStart stage_start _ _ _ _ Hinv)
    as (σ1 & Hrun1 & Htr1 & Hst1 & Hfr1 & Henv1).
  pose proof (wpd_inv_env _ _ _ _ _ Henv1 Hinv) as Hinv1.
  destruct (broadcast_exec "start" MStart stage_start _ _ _ _ Hinv1)
    as (σ2 & Hrun2 & Htr2 & Hst2 & _ & _).
  exists σ1, σ2.
  split; [ done | ]. split; [ done | ].
  split; [ by eapply inv_NoDup_stages | ].
  split; [ by eapply inv_pipeline_order | ].
  split; [ done | ]. split; [ done | ]. split; [ done | ].
  split.
  - rewrite Htr2, Htr1. by rewrite <- (assoc_L (++)).
  - intros s Hs. by apply Hst2.
Qed.

(** C9. On every constructed pipeline [stop()] calls [stop()] once on each
    of the five workers and returns: the calls it makes are these five and
    no other (it asks no worker whether it is done or running), each worker
    has received one stop request, and nothing else has changed.  It
    returns whatever state the workers are then in. *)
Theorem Wpd_stop_each_once σ self L (ui : Observer) :
  wpd_inv σ self L ui →
  ∃ σ',
    Wpd_stop stage_stop self σ = (Ok tt, σ') ∧
    trace σ' = trace σ ++ to_each MStop L ∧
    NoDup (stages L) ∧
    (∀ e, e ∈ drop (length (trace σ)) (trace σ') → method e = MStop) ∧
    (∀ s, s ∈ stages L →
          is_Some (stage_state σ' s) ∧
          stage_state σ' s = stage_after stage_stop σ s) ∧
    (∀ s, s ∉ stages L → heap σ' !! s = heap σ !! s).
Proof.
  intros Hinv.
  destruct (broadcast_exec "stop" MStop stage_stop _ _ _ _ Hinv)
    as (σ' & Hrun & Htr & Hst & Hfr & _).
  exists σ'.
  split; [ done | ]. split; [ done | ].
  split; [ by eapply inv_NoDup_stages | ].
  split; [ | done ].
  intros e. rewrite Htr, drop_old_trace. unfold to_each.
  intros He. repeat (apply elem_of_cons in He as [-> | He]; [ done | ]).
  by apply elem_of_nil in He.
Qed.

(** ** Getters *)

(** C5. On every constructed pipeline, whatever its queues hold,
    [getProcessedDataSize()] returns the number of items in [dataQueue]:
    the queue the PreProcessor writes to and the Window reads from. *)
Theorem Wpd_getProcessedDataSize_dataQueue σ self L (ui : Observer) :
  wpd_inv σ self L ui →
  ∃ items,
    heap σ !! dataQueue L = Some (OQueue items) ∧
    Wpd_getProcessedDataSize self σ
    = (Ok (length items),
       mkWorld (heap σ) (trace σ ++ [ECall (dataQueue L) MSize])) ∧
    stage_output σ (preProcessing L) = Some (VRef (dataQueue L)) ∧
    stage_input σ (window L) = Some (VRef (dataQueue L)).
Proof.
  intros Hinv.
  destruct (inv_pipeline_order _ _ _ _ Hinv).
  destruct Hinv.
  destruct inv_dataQueue0 as [items E]. exists items.
  split; [ done | ]. split; [ | done ].
  unfold Wpd_getProcessedDataSize.
  erewrite bind_ok
    by (eapply getattr_ok; [ eassumption | attr_lookup ]).
  unfold Queue_size. by rewrite E.
Qed.

(** C6. On every constructed pipeline, whatever the sequence of confirmed
    peaks holds, [getSteps()] returns its length, and [getPeaks()] returns
    that very sequence: the one subscribed under [confirmed_peak_data] and
    written by the PostProcessor, which is neither the sequence of
    candidate peaks nor the queue of candidate peaks.  So [getSteps()] is
    the length of what [getPeaks()] returns. *)
Theorem Wpd_getSteps_confirmedPeaks σ self L (ui : Observer) :
  wpd_inv σ self L ui →
  ∃ items subs,
    heap σ !! confirmedPeaks L = Some (OPlottableList items subs) ∧
    (ui, "confirmed_peak_data") ∈ subs ∧
    Wpd_getPeaks self σ = (Ok (VRef (confirmedPeaks L)), σ) ∧
    Wpd_getSteps self σ
    = (Ok (length items),
       mkWorld (heap σ) (trace σ ++ [ECall (confirmedPeaks L) MLen])) ∧
    (Wpd_getPeaks self ≫= PlottableList_len) σ = Wpd_getSteps self σ ∧
    confirmedPeaks L ≠ peakData L ∧
    confirmedPeaks L ≠ peaks L ∧
    stage_output σ (postProcessing L) = Some (VRef (confirmedPeaks L)).
Proof.
  intros Hinv.
  pose proof (inv_NoDup_sequences _ _ _ _ Hinv) as Hnd.
  destruct (inv_pipeline_order _ _ _ _ Hinv).
  destruct Hinv.
  destruct inv_confirmedPeaks0 as (items & subs & E & Hsub).
  destruct inv_peaks0 as [items' E'].
  exists items, subs.
  assert (Wpd_getPeaks self σ = (Ok (VRef (confirmedPeaks L)), σ)) as Hget
    by (eapply getattr_ok; [ eassumption | attr_lookup ]).
  split; [ done | ]. split; [ done | ]. split; [ done | ].
  split; [ | split; [ done | ] ].
  - unfold Wpd_getSteps. unfold Wpd_getPeaks in Hget.
    erewrite bind_ok by exact Hget.
    unfold PlottableList_len. by rewrite E.
  - split; [ | split; [ congruence | done ] ].
    unfold sequences in Hnd. split_NoDup Hnd. congruence.
Qed.

Lemma peakyData_not_bound :
  bool_decide ("peakyData" ∈ Wpd_methods) = false.
Proof. reflexivity. Qed.

(** C7. On every constructed pipeline [getPeakyData()] raises
    [AttributeError] instead of returning: [__init__] binds no attribute
    [peakyData] and the class has none either.  In particular it does not
    return the sequence bound to [peakScoreData]. *)
Theorem Wpd_getPeakyData_raises σ self L (ui : Observer) :
  wpd_inv σ self L ui →
  Wpd_getPeakyData self σ = (Raise (AttributeError "peakyData"), σ) ∧
  Wpd_dict L !! "peakyData" = None ∧
  ("peakyData" ∉ Wpd_methods) ∧
  Wpd_dict L !! "peakScoreData" = Some (VRef (peakScoreData L)) ∧
  fst (Wpd_getPeakyData self σ) ≠ Ok (VRef (peakScoreData L)).
Proof.
  intros [].
  assert (Wpd_getPeakyData self σ = (Raise (AttributeError "peakyData"), σ))
    as Hget.
  { unfold Wpd_getPeakyData, getattr.
    by rewrite inv_self0, Wpd_dict_peakyData, peakyData_not_bound. }
  split; [ done | ].
  split; [ apply Wpd_dict_peakyData | ].
  split; [ apply (bool_decide_eq_false_1 _ peakyData_not_bound) | ].
  split; [ unfold Wpd_dict; dict_lookup | ].
  by rewrite Hget.
Qed.

(** ** Construction *)

Lemma Wpd_objects_inv h t n queue p1 wc p2 fc p3 p4 p5 (ui : Observer) :
  n = length h →
  wpd_inv
    (mkWorld
       (h ++ Wpd_objects stage_init (Wpd_layout n queue)
               p1 wc p2 fc p3 p4 p5 ui) t)
    n (Wpd_layout n queue) ui.
Proof.
  intros Hn.
  constructor; unfold is_queue, is_sequence, is_stage;
    cbn [heap Wpd_layout dataQueue smoothedDataQueue peakScores peaks data
         smoothedData peakScoreData peakData confirmedPeaks preProcessing
         window peakScorer peakDetection postProcessing inputQueue];
    rewrite ?(lookup_off _ _ _ _ Hn).
  - by rewrite (lookup_off0 _ _ _ Hn).
  - by eexists.
  - by eexists.
  - by eexists.
  - by eexists.
  - do 2 eexists. split; [ done | by left ].
  - do 2 eexists. split; [ done | by left ].
  - do 2 eexists. split; [ done | by left ].
  - do 2 eexists. split; [ done | by left ].
  - do 2 eexists. split; [ done | by left ].
  - by do 3 eexists.
  - by do 3 eexists.
  - by do 3 eexists.
  - by do 3 eexists.
  - by do 3 eexists.
  - unfold queues, sequences, stages. cbn.
    repeat (apply NoDup_cons; split;
            [ rewrite ?elem_of_cons, ?elem_of_nil; lia | ]).
    apply NoDup_nil_2.
Qed.


Lemma created_app h t t' (objs : list Obj) K s :
  created (mkWorld h t) (mkWorld (h ++ objs) t') K s ↔
  ∃ k, s = length h + k ∧ kind <$> objs !! k = Some K.
Proof.
  unfold created. cbn [heap]. split.
  - intros [Hnone Hk]. apply lookup_ge_None in Hnone.
    exists (s - length h). split; [ lia | ].
    by rewrite lookup_app_r in Hk.
  - intros (k & -> & Hk). split.
    + apply lookup_ge_None. lia.
    + by rewrite (lookup_off _ _ _ _ eq_refl).
Qed.

Lemma created_by_Wpd h t t' n queue p1 wc p2 fc p3 p4 p5 (ui : Observer)
    K s :
  n = length h →
  created (mkWorld h t)
    (mkWorld
       (h ++ Wpd_objects stage_init (Wpd_layout n queue)
               p1 wc p2 fc p3 p4 p5 ui) t') K s ↔
  match K with
  | KQueue => s ∈ queues (Wpd_layout n queue)
  | KSequence => s ∈ sequences (Wpd_layout n queue)
  | KStage => s ∈ stages (Wpd_layout n queue)
  | KWpd => s = n
  end.
Proof.
  intros ->. rewrite created_app.
  unfold queues, sequences, stages, Wpd_layout.
  cbn [dataQueue smoothedDataQueue peakScores peaks data smoothedData
       peakScoreData peakData confirmedPeaks preProcessing window peakScorer
       peakDetection postProcessing].
  split.
  - intros (k & -> & Hk).
    do 15 (destruct k as [ | k ];
           [ cbn in Hk; injection Hk as <-; cbn;
             rewrite ?elem_of_cons; lia | ]).
    done.
  - destruct K; cbn; rewrite ?elem_of_cons, ?elem_of_nil;
      intros H;
      repeat (destruct H as [ -> | H ]; [ by eexists (_ : nat) | ]);
      try done.
    subst. by exists 0.
Qed.

Lemma inv_NoDup_queues σ self L (ui : Observer) :
  wpd_inv σ self L ui → NoDup (queues L).
Proof.
  intros [].
  by apply NoDup_cons_1_2, NoDup_app in inv_distinct0 as (H & _ & _).
Qed.

Lemma Wpd_objects_classes h t n queue p1 wc p2 fc p3 p4 p5 (ui : Observer) :
  n = length h →
  let L := Wpd_layout n queue in
  let σ' :=
    mkWorld (h ++ Wpd_objects stage_init L p1 wc p2 fc p3 p4 p5 ui) t in
  stage_class σ' (preProcessing L) = Some WpdPreProcessor ∧
  stage_class σ' (window L) = Some wc ∧
  stage_class σ' (peakScorer L) = Some fc ∧
  stage_class σ' (peakDetection L) = Some PeakDetector ∧
  stage_class σ' (postProcessing L) = Some WpdPostProcessor.
Proof.
  intros Hn. unfold stage_class.
  cbn [heap Wpd_layout preProcessing window peakScorer peakDetection
       postProcessing].
  by rewrite !(lookup_off _ _ _ _ Hn).
Qed.

(** C3. Given a source queue, the parameter bundles and an observer, with
    both type tags registered, the constructor returns a new instance
    having created exactly four queues, five observable sequences and five
    workers, all of them new objects, and having wired the workers into one
    chain: the PreProcessor reads the queue that was passed in and writes
    [dataQueue], which the Window reads; the Window writes
    [smoothedDataQueue], which the PeakScorer reads; the PeakScorer writes
    [peakScores], which the PeakDetector reads; the PeakDetector writes
    [peaks], which the PostProcessor reads; the PostProcessor writes the
    [confirmedPeaks] sequence. *)
Theorem Wpd_new_wiring σ queue p1 wt p2 ft p3 p4 p5 (ui : Observer) wc fc :
  SMOOTHING_WINDOWS !! wt = Some wc →
  PEAKY_FUNCTIONS !! ft = Some fc →
  ∃ σ' L,
    Wpd_new stage_init SMOOTHING_WINDOWS PEAKY_FUNCTIONS
      queue p1 wt p2 ft p3 p4 p5 ui σ
    = (Ok (VRef (length (heap σ))), σ') ∧
    L = Wpd_layout (length (heap σ)) queue ∧
    heap σ' = heap σ ++ Wpd_objects stage_init L p1 wc p2 fc p3 p4 p5 ui ∧
    (∀ s, created σ σ' KQueue s ↔ s ∈ queues L) ∧
    NoDup (queues L) ∧ length (queues L) = 4 ∧
    (∀ s, created σ σ' KSequence s ↔ s ∈ sequences L) ∧
    NoDup (sequences L) ∧ length (sequences L) = 5 ∧
    (∀ s, created σ σ' KStage s ↔ s ∈ stages L) ∧
    NoDup (stages L) ∧ length (stages L) = 5 ∧
    inputQueue L = queue ∧
    in_pipeline_order σ' L ∧
    is_sequence σ' (confirmedPeaks L) ui "confirmed_peak_data" ∧
    stage_class σ' (preProcessing L) = Some WpdPreProcessor ∧
    stage_class σ' (window L) = Some wc ∧
    stage_class σ' (peakScorer L) = Some fc ∧
    stage_class σ' (peakDetection L) = Some PeakDetector ∧
    stage_class σ' (postProcessing L) = Some WpdPostProcessor.
Proof.
  intros Hw Hf. do 2 eexists.
  split; [ by apply Wpd_new_exec | ]. split; [ done | ].
  destruct σ as [h t]. cbn [heap trace].
  pose proof (Wpd_objects_inv h (t ++ Wpd_subscriptions
                (Wpd_layout (length h) queue) ui) _ queue
                p1 wc p2 fc p3 p4 p5 ui eq_refl) as Hinv.
  split; [ done | ].
  split; [ intros s; by apply (created_by_Wpd _ _ _ _ _ _ _ _ _ _ _ _ _
                                 KQueue) | ].
  split; [ by eapply inv_NoDup_queues | ]. split; [ done | ].
  split; [ intros s; by apply (created_by_Wpd _ _ _ _ _ _ _ _ _ _ _ _ _
                                 KSequence) | ].
  split; [ by eapply inv_NoDup_sequences | ]. split; [ done | ].
  split; [ intros s; by apply (created_by_Wpd _ _ _ _ _ _ _ _ _ _ _ _ _
                                 KStage) | ].
  split; [ by eapply inv_NoDup_stages | ]. split; [ done | ].
  split; [ done | ].
  split; [ by eapply inv_pipeline_order | ].
  split; [ by destruct Hinv | ].
  by apply Wpd_objects_classes.
Qed.

(** C4. With both type tags registered, the constructor subscribes the
    observer it was given five times and makes no other call on a
    collaborator: once on each of the five sequences it has just created,
    which are pairwise distinct, under the topics [raw_data],
    [smooth_data], [peak_score_data], [peak_data] and
    [confirmed_peak_data] in this order.  Afterwards each of the five
    sequences has this one subscription, and no object that existed before
    the call has changed. *)
Theorem Wpd_new_subscriptions σ queue p1 wt p2 ft p3 p4 p5 (ui : Observer)
    wc fc :
  SMOOTHING_WINDOWS !! wt = Some wc →
  PEAKY_FUNCTIONS !! ft = Some fc →
  ∃ σ' L,
    Wpd_new stage_init SMOOTHING_WINDOWS PEAKY_FUNCTIONS
      queue p1 wt p2 ft p3 p4 p5 ui σ
    = (Ok (VRef (length (heap σ))), σ') ∧
    L = Wpd_layout (length (heap σ)) queue ∧
    trace σ' = trace σ ++
      [ ECall (data L) (MSubscribe ui "raw_data");
        ECall (smoothedData L) (MSubscribe ui "smooth_data");
        ECall (peakScoreData L) (MSubscribe ui "peak_score_data");
        ECall (peakData L) (MSubscribe ui "peak_data");
        ECall (confirmedPeaks L) (MSubscribe ui "confirmed_peak_data") ] ∧
    NoDup (sequences L) ∧
    (∀ s, created σ σ' KSequence s ↔ s ∈ sequences L) ∧
    heap σ' !! data L = Some (OPlottableList [] [(ui, "raw_data")]) ∧
    heap σ' !! smoothedData L
    = Some (OPlottableList [] [(ui, "smooth_data")]) ∧
    heap σ' !! peakScoreData L
    = Some (OPlottableList [] [(ui, "peak_score_data")]) ∧
    heap σ' !! peakData L = Some (OPlottableList [] [(ui, "peak_data")]) ∧
    heap σ' !! confirmedPeaks L
    = Some (OPlottableList [] [(ui, "confirmed_peak_data")]) ∧
    (∀ s o, heap σ !! s = Some o → heap σ' !! s = Some o).
Proof.
  intros Hw Hf. do 2 eexists.
  split; [ by apply Wpd_new_exec | ]. split; [ done | ].
  destruct σ as [h t]. cbn [heap trace].
  pose proof (Wpd_objects_inv h (t ++ Wpd_subscriptions
                (Wpd_layout (length h) queue) ui) _ queue
                p1 wc p2 fc p3 p4 p5 ui eq_refl) as Hinv.
  split; [ done | ].
  split; [ by eapply inv_NoDup_sequences | ].
  split; [ intros s; by apply (created_by_Wpd _ _ _ _ _ _ _ _ _ _ _ _ _
                                 KSequence) | ].
  cbn [Wpd_layout data smoothedData peakScoreData peakData confirmedPeaks].
  rewrite !(lookup_off _ _ _ _ eq_refl).
  repeat (split; [ done | ]).
  intros s o E. by apply lookup_app_l_Some.
Qed.

(** ** Frame of the lifecycle methods *)

Abbreviation do_call' :=
  (do_call stage_start stage_stop stage_isDone stage_isRunning).
Abbreviation do_calls' :=
  (do_calls stage_start stage_stop stage_isDone stage_isRunning).

Lemma framed_refl L σ : framed L σ σ.
Proof.
  split; [ done | ]. exists []. by rewrite (right_id_L [] (++)).
Qed.

Lemma framed_trans L σ1 σ2 σ3 :
  framed L σ1 σ2 → framed L σ2 σ3 → framed L σ1 σ3.
Proof.
  intros [H1 (n1 & T1 & F1)] [H2 (n2 & T2 & F2)]. split.
  - intros s Hs. by rewrite H2, H1.
  - exists (n1 ++ n2). split.
    + by rewrite T2, T1, (assoc_L (++)).
    + by apply Forall_app.
Qed.

Lemma framed_query L m r1 r2 r3 r4 r5 stop_at h t :
  framed L (mkWorld h t)
    (mkWorld h
       (t ++ ((λ s, ECall s m) <$>
              asked stop_at
                [(preProcessing L, r1); (window L, r2); (peakScorer L, r3);
                 (peakDetection L, r4); (postProcessing L, r5)]))).
Proof.
  split; [ done | ]. eexists. split; [ done | ].
  apply Forall_fmap, Forall_forall. intros s Hs. cbn.
  by apply asked_subseteq in Hs.
Qed.

Lemma do_call_framed σ self L (ui : Observer) c :
  wpd_inv σ self L ui →
  wpd_inv (do_call' self c σ) self L ui ∧ framed L σ (do_call' self c σ).
Proof.
  intros Hinv. destruct c; cbn [do_call].
  - destruct (broadcast_exec "start" MStart stage_start _ _ _ _ Hinv)
      as (σ' & Hrun & Htr & _ & Hfr & Henv).
    unfold Wpd_start, Stage_start. rewrite Hrun. cbn [snd].
    split; [ by eapply wpd_inv_env | ].
    split; [ done | ]. eexists. split; [ done | ].
    apply Forall_fmap, Forall_forall. by intros s Hs.
  - destruct (broadcast_exec "stop" MStop stage_stop _ _ _ _ Hinv)
      as (σ' & Hrun & Htr & _ & Hfr & Henv).
    unfold Wpd_stop, Stage_stop. rewrite Hrun. cbn [snd].
    split; [ by eapply wpd_inv_env | ].
    split; [ done | ]. eexists. split; [ done | ].
    apply Forall_fmap, Forall_forall. by intros s Hs.
  - destruct (inv_reports stage_isDone _ _ _ _ Hinv)
      as (r1 & r2 & r3 & r4 & r5 & R1 & R2 & R3 & R4 & R5).
    unfold Wpd_isDone, Stage_isDone.
    erewrite and_exec by done. cbn [snd]. destruct σ as [h t].
    split; [ | apply framed_query ].
    eapply wpd_inv_env; [ | done ]. apply env_step_trace.
  - destruct (inv_reports stage_isRunning _ _ _ _ Hinv)
      as (r1 & r2 & r3 & r4 & r5 & R1 & R2 & R3 & R4 & R5).
    unfold Wpd_isRunning, Stage_isRunning.
    erewrite or_exec by done. cbn [snd]. destruct σ as [h t].
    split; [ | apply framed_query ].
    eapply wpd_inv_env; [ | done ]. apply env_step_trace.
Qed.

Lemma do_calls_framed σ self L (ui : Observer) cs :
  wpd_inv σ self L ui →
  wpd_inv (do_calls' self cs σ) self L ui ∧
  framed L σ (do_calls' self cs σ).
Proof.
  revert σ. induction cs as [ | c cs IH ]; intros σ Hinv.
  - split; [ done | apply framed_refl ].
  - destruct (do_call_framed _ _ _ _ c Hinv) as [Hinv1 Hfr1].
    destruct (IH _ Hinv1) as [Hinv2 Hfr2].
    split; [ done | ]. by eapply framed_trans.
Qed.


Lemma inv_self_not_stage σ self L (ui : Observer) :
  wpd_inv σ self L ui → self ∉ stages L.
Proof.
  intros []. apply NoDup_cons_1_1 in inv_distinct0.
  rewrite !not_elem_of_app in inv_distinct0. tauto.
Qed.

Lemma inv_dataQueue_not_stage σ self L (ui : Observer) :
  wpd_inv σ self L ui → dataQueue L ∉ stages L.
Proof.
  intros []. apply NoDup_cons_1_2 in inv_distinct0.
  apply NoDup_app in inv_distinct0 as (_ & H & _).
  intros Hin. eapply H; [ | by apply elem_of_app; right ]. by left.
Qed.

(** C10. [start()], [stop()], [isDone()] and [isRunning()] only call the
    five workers.  After any sequence of these calls on a constructed
    pipeline the instance is bound exactly as before, every object other
    than the five workers is unchanged, all calls made went to the
    workers, and [getRawData()], [getSmoothedData()], [getPeaks()] return
    the objects they returned before, while [getProcessedDataSize()]
    measures the same queue, with the same contents. *)
Theorem lifecycle_calls_frame σ self L (ui : Observer) cs :
  wpd_inv σ self L ui →
  let σ' := do_calls' self cs σ in
  heap σ' !! self = heap σ !! self ∧
  (∀ s, s ∉ stages L → heap σ' !! s = heap σ !! s) ∧
  (∃ new, trace σ' = trace σ ++ new ∧
          Forall (λ e, target e ∈ stages L) new) ∧
  Wpd_getRawData self σ = (Ok (VRef (data L)), σ) ∧
  Wpd_getRawData self σ' = (Ok (VRef (data L)), σ') ∧
  Wpd_getSmoothedData self σ = (Ok (VRef (smoothedData L)), σ) ∧
  Wpd_getSmoothedData self σ' = (Ok (VRef (smoothedData L)), σ') ∧
  Wpd_getPeaks self σ = (Ok (VRef (confirmedPeaks L)), σ) ∧
  Wpd_getPeaks self σ' = (Ok (VRef (confirmedPeaks L)), σ') ∧
  ∃ items,
    heap σ !! dataQueue L = Some (OQueue items) ∧
    heap σ' !! dataQueue L = Some (OQueue items) ∧
    fst (Wpd_getProcessedDataSize self σ) = Ok (length items) ∧
    fst (Wpd_getProcessedDataSize self σ') = Ok (length items).
Proof.
  intros Hinv σ'.
  destruct (do_calls_framed _ _ _ _ cs Hinv) as [Hinv' [Hfr Hcalls]].
  fold σ' in Hinv', Hfr, Hcalls.
  pose proof (inv_self _ _ _ _ Hinv) as Hself.
  pose proof (inv_self _ _ _ _ Hinv') as Hself'.
  split; [ by rewrite Hself, Hself' | ].
  split; [ done | ]. split; [ done | ].
  unfold Wpd_getRawData, Wpd_getSmoothedData, Wpd_getPeaks.
  do 6 (split; [ eapply getattr_ok; [ eassumption | attr_lookup ] | ]).
  destruct (inv_dataQueue _ _ _ _ Hinv) as [items E].
  exists items.
  assert (heap σ' !! dataQueue L = Some (OQueue items)) as E'.
  { rewrite Hfr; [ done | by eapply inv_dataQueue_not_stage ]. }
  split; [ done | ]. split; [ done | ].
  unfold Wpd_getProcessedDataSize.
  erewrite !bind_ok
    by (eapply getattr_ok; [ eassumption | attr_lookup ]).
  unfold Queue_size. by rewrite E, E'.
Qed.

(** * Further facts *)

(** ** A constructor call that fails *)

Lemma Wpd_dict_bindings L : dict_of (Wpd_bindings L) = Wpd_dict L.
Proof. reflexivity. Qed.

Lemma Wpd_init_unknown_window h t n queue p1 wt p2 ft p3 p4 p5
    (ui : Observer) :
  n = length h →
  SMOOTHING_WINDOWS !! wt = None →
  Wpd_init stage_init SMOOTHING_WINDOWS PEAKY_FUNCTIONS
    n queue p1 wt p2 ft p3 p4 p5 ui (mkWorld (h ++ [OWpd ∅]) t)
  = (Raise (KeyError wt),
     mkWorld
       (h ++ Wpd_partial (Wpd_layout n queue) ui
               [ new_stage stage_init WpdPreProcessor p1
                   [queue; VRef (n + 5); VRef (n + 1)] ])
       (t ++ Wpd_subscriptions (Wpd_layout n queue) ui)).
Proof.
  intros Hn Hw.
  unfold Wpd_init, Queue_new, PlottableList_new, Stage_new.
  repeat step.
  erewrite bind_raise; [ | unfold subscript; by rewrite Hw ].
  unfold Wpd_subscriptions.
  by rewrite <- !(assoc_L (++)).
Qed.

Lemma Wpd_init_unknown_scorer h t n queue p1 wt p2 ft p3 p4 p5
    (ui : Observer) wc :
  n = length h →
  SMOOTHING_WINDOWS !! wt = Some wc →
  PEAKY_FUNCTIONS !! ft = None →
  Wpd_init stage_init SMOOTHING_WINDOWS PEAKY_FUNCTIONS
    n queue p1 wt p2 ft p3 p4 p5 ui (mkWorld (h ++ [OWpd ∅]) t)
  = (Raise (KeyError ft),
     mkWorld
       (h ++ Wpd_partial (Wpd_layout n queue) ui
               [ new_stage stage_init WpdPreProcessor p1
                   [queue; VRef (n + 5); VRef (n + 1)];
                 new_stage stage_init wc p2
                   [VRef (n + 1); VRef (n + 2)] ])
       (t ++ Wpd_subscriptions (Wpd_layout n queue) ui)).
Proof.
  intros Hn Hw Hf.
  unfold Wpd_init, Queue_new, PlottableList_new, Stage_new.
  repeat step.
  erewrite bind_raise; [ | unfold subscript; by rewrite Hf ].
  unfold Wpd_subscriptions.
  by rewrite <- !(assoc_L (++)).
Qed.

Lemma Wpd_new_raise σ queue p1 wt p2 ft p3 p4 p5 (ui : Observer) e σ' :
  Wpd_init stage_init SMOOTHING_WINDOWS PEAKY_FUNCTIONS
    (length (heap σ)) queue p1 wt p2 ft p3 p4 p5 ui
    (mkWorld (heap σ ++ [OWpd ∅]) (trace σ)) = (Raise e, σ') →
  Wpd_new stage_init SMOOTHING_WINDOWS PEAKY_FUNCTIONS
    queue p1 wt p2 ft p3 p4 p5 ui σ = (Raise e, σ').
Proof.
  intros Hinit. unfold Wpd_new.
  erewrite bind_ok; [ | by unfold alloc ].
  by erewrite bind_raise.
Qed.

Lemma wpd_inv_alloc h t t' new self L (ui : Observer) :
  wpd_inv (mkWorld h t) self L ui → wpd_inv (mkWorld (h ++ new) t') self L ui.
Proof. apply wpd_inv_env, env_step_alloc. Qed.

Lemma created_by_partial h t t' n queue (ui : Observer) workers K s :
  n = length h →
  Forall (λ o, kind o = KStage) workers →
  created (mkWorld h t)
    (mkWorld (h ++ Wpd_partial (Wpd_layout n queue) ui workers) t') K s ↔
  match K with
  | KQueue => s ∈ queues (Wpd_layout n queue)
  | KSequence => s ∈ sequences (Wpd_layout n queue)
  | KStage => ∃ k, k < length workers ∧ s = n + 10 + k
  | KWpd => s = n
  end.
Proof.
  intros -> Hw. rewrite created_app.
  unfold queues, sequences, Wpd_layout, Wpd_partial.
  cbn [dataQueue smoothedDataQueue peakScores peaks data smoothedData
       peakScoreData peakData confirmedPeaks].
  split.
  - intros (k & -> & Hk).
    do 10 (destruct k as [ | k ];
           [ cbn in Hk; injection Hk as <-; cbn;
             rewrite ?elem_of_cons, ?elem_of_nil; lia | ]).
    cbn in Hk. destruct (workers !! k) as [o | ] eqn:E; [ | done ].
    rewrite Forall_lookup in Hw. cbn in Hk. injection Hk as <-.
    rewrite (Hw _ _ E). exists k. split; [ by eapply lookup_lt_Some | lia ].
  - destruct K; cbn; rewrite ?elem_of_cons, ?elem_of_nil.
    + intros H.
      repeat (destruct H as [ -> | H ]; [ by eexists (_ : nat) | ]); done.
    + intros H.
      repeat (destruct H as [ -> | H ]; [ by eexists (_ : nat) | ]); done.
    + intros (k & Hlt & ->). exists (10 + k). split; [ lia | ].
      change (10 + k) with (S (S (S (S (S (S (S (S (S (S k)))))))))).
      do 10 (rewrite lookup_cons_ne_0 by lia; cbn [Nat.pred]).
      destruct (lookup_lt_is_Some_2 _ _ Hlt) as [o E].
      rewrite Forall_lookup in Hw. by rewrite E, <- (Hw _ _ E).
    + intros ->. by exists 0.
Qed.

(** X1. When the window type is not in [SMOOTHING_WINDOWS] the constructor
    raises [KeyError] with that type, whatever the scoring type is.  By
    then it has created the instance, the four queues, the five sequences
    with their subscriptions and the PreProcessor, and no other worker;
    nothing is undone, nothing that existed before has changed, and every
    pipeline that existed is intact. *)
Theorem Wpd_new_unregistered_window σ queue p1 wt p2 ft p3 p4 p5
    (ui : Observer) :
  SMOOTHING_WINDOWS !! wt = None →
  ∃ σ' L,
    L = Wpd_layout (length (heap σ)) queue ∧
    Wpd_new stage_init SMOOTHING_WINDOWS PEAKY_FUNCTIONS
      queue p1 wt p2 ft p3 p4 p5 ui σ
    = (Raise (KeyError wt), σ') ∧
    heap σ' = heap σ ++
      Wpd_partial L ui
        [ new_stage stage_init WpdPreProcessor p1
            [queue; VRef (data L); VRef (dataQueue L)] ] ∧
    trace σ' = trace σ ++ Wpd_subscriptions L ui ∧
    (∀ s, created σ σ' KQueue s ↔ s ∈ queues L) ∧
    (∀ s, created σ σ' KSequence s ↔ s ∈ sequences L) ∧
    (∀ s, created σ σ' KStage s ↔ s = preProcessing L) ∧
    (∀ s o, heap σ !! s = Some o → heap σ' !! s = Some o) ∧
    (∀ other L' ui', wpd_inv σ other L' ui' → wpd_inv σ' other L' ui').
Proof.
  intros Hw. do 2 eexists. split; [ done | ].
  split; [ by apply Wpd_new_raise, Wpd_init_unknown_window | ].
  destruct σ as [h t]. cbn [heap trace].
  split; [ done | ]. split; [ done | ].
  split; [ intros s; apply (created_by_partial _ _ _ _ _ _ _ KQueue);
           [ done | by repeat constructor ] | ].
  split; [ intros s; apply (created_by_partial _ _ _ _ _ _ _ KSequence);
           [ done | by repeat constructor ] | ].
  split.
  { intros s.
    rewrite (created_by_partial _ _ _ _ _ _ _ KStage);
      [ | done | by repeat constructor ].
    cbn. split; [ intros (k & Hk & ->) | intros -> ].
    - by replace k with 0 by lia.
    - exists 0. split; lia. }
  split; [ intros s o E; by apply lookup_app_l_Some | ].
  intros other L' ui'. apply wpd_inv_alloc.
Qed.

(** X2. When the window type is registered and the scoring type is not in
    [PEAKY_FUNCTIONS] the constructor raises [KeyError] with the scoring
    type.  By then it has also built the window worker, wired to
    [dataQueue] and [smoothedDataQueue]; the PeakScorer, the PeakDetector
    and the PostProcessor do not exist.  Nothing that existed before has
    changed. *)
Theorem Wpd_new_unregistered_scorer σ queue p1 wt p2 ft p3 p4 p5
    (ui : Observer) wc :
  SMOOTHING_WINDOWS !! wt = Some wc →
  PEAKY_FUNCTIONS !! ft = None →
  ∃ σ' L,
    L = Wpd_layout (length (heap σ)) queue ∧
    Wpd_new stage_init SMOOTHING_WINDOWS PEAKY_FUNCTIONS
      queue p1 wt p2 ft p3 p4 p5 ui σ
    = (Raise (KeyError ft), σ') ∧
    heap σ' = heap σ ++
      Wpd_partial L ui
        [ new_stage stage_init WpdPreProcessor p1
            [queue; VRef (data L); VRef (dataQueue L)];
          new_stage stage_init wc p2
            [VRef (dataQueue L); VRef (smoothedDataQueue L)] ] ∧
    trace σ' = trace σ ++ Wpd_subscriptions L ui ∧
    (∀ s, created σ σ' KStage s ↔ s = preProcessing L ∨ s = window L) ∧
    (∀ s o, heap σ !! s = Some o → heap σ' !! s = Some o) ∧
    (∀ other L' ui', wpd_inv σ other L' ui' → wpd_inv σ' other L' ui').
Proof.
  intros Hw Hf. do 2 eexists. split; [ done | ].
  split; [ by eapply Wpd_new_raise, Wpd_init_unknown_scorer | ].
  destruct σ as [h t]. cbn [heap trace].
  split; [ done | ]. split; [ done | ].
  split.
  { intros s.
    rewrite (created_by_partial _ _ _ _ _ _ _ KStage);
      [ | done | by repeat constructor ].
    cbn. split; [ intros (k & Hk & ->) | intros [ -> | -> ] ].
    - destruct k as [ | [ | k ] ]; [ left | right | ]; cbn in *; lia.
    - exists 0. split; lia.
    - exists 1. split; lia. }
  split; [ intros s o E; by apply lookup_app_l_Some | ].
  intros other L' ui'. apply wpd_inv_alloc.
Qed.

(** X3. What a constructor call does is decided by the two registry
    lookups, the window type first: it raises [KeyError] for the first
    type that is not registered and otherwise returns the new instance.
    In all three cases the store has only grown and the calls made are the
    five subscriptions. *)
Theorem Wpd_new_outcome σ queue p1 wt p2 ft p3 p4 p5 (ui : Observer) :
  let r :=
    Wpd_new stage_init SMOOTHING_WINDOWS PEAKY_FUNCTIONS
      queue p1 wt p2 ft p3 p4 p5 ui σ in
  fst r =
    match SMOOTHING_WINDOWS !! wt with
    | None => Raise (KeyError wt)
    | Some _ =>
        match PEAKY_FUNCTIONS !! ft with
        | None => Raise (KeyError ft)
        | Some _ => Ok (VRef (length (heap σ)))
        end
    end ∧
  (∃ new, heap (snd r) = heap σ ++ new ∧ (11 ≤ length new ≤ 15)%nat) ∧
  trace (snd r) =
    trace σ ++ Wpd_subscriptions (Wpd_layout (length (heap σ)) queue) ui.
Proof.
  intros r. subst r.
  destruct (SMOOTHING_WINDOWS !! wt) as [wc | ] eqn:Hw.
  - destruct (PEAKY_FUNCTIONS !! ft) as [fc | ] eqn:Hf.
    + erewrite Wpd_new_exec by done. cbn [fst snd heap trace].
      split; [ done | ]. split; [ | done ].
      eexists. split; [ done | ]. cbn. lia.
    + erewrite Wpd_new_raise; [ | by eapply Wpd_init_unknown_scorer ].
      cbn [fst snd heap trace].
      split; [ done | ]. split; [ | done ].
      eexists. split; [ done | ]. cbn. lia.
  - erewrite Wpd_new_raise; [ | by eapply Wpd_init_unknown_window ].
    cbn [fst snd heap trace].
    split; [ done | ]. split; [ | done ].
    eexists. split; [ done | ]. cbn. lia.
Qed.

(** ** The attributes of an instance *)




(** ** What the getters expose *)

Lemma inv_sequences_distinct σ self L (ui : Observer) :
  wpd_inv σ self L ui →
  data L ≠ peakScoreData L ∧ data L ≠ peakData L ∧
  smoothedData L ≠ peakScoreData L ∧ smoothedData L ≠ peakData L ∧
  confirmedPeaks L ≠ peakScoreData L ∧ confirmedPeaks L ≠ peakData L ∧
  data L ≠ smoothedData L ∧ data L ≠ confirmedPeaks L ∧
  smoothedData L ≠ confirmedPeaks L.
Proof.
  intros Hinv. pose proof (inv_NoDup_sequences _ _ _ _ Hinv) as Hnd.
  unfold sequences in Hnd. split_NoDup Hnd.
  repeat split; congruence.
Qed.

(** X5. Of the five sequences a pipeline creates, the getters expose
    three, pairwise distinct: [getRawData()] returns [data],
    [getSmoothedData()] returns [smoothedData] and [getPeaks()] returns
    [confirmedPeaks].  The sequences [peakScoreData] and [peakData], which
    are subscribed and handed to the PeakDetector and to the
    PostProcessor, are returned by no getter. *)
Theorem Wpd_getters_expose σ self L (ui : Observer) :
  wpd_inv σ self L ui →
  let exposed :=
    [ fst (Wpd_getRawData self σ); fst (Wpd_getSmoothedData self σ);
      fst (Wpd_getPeakyData self σ); fst (Wpd_getPeaks self σ) ] in
  exposed =
    [ Ok (VRef (data L)); Ok (VRef (smoothedData L));
      Raise (AttributeError "peakyData"); Ok (VRef (confirmedPeaks L)) ] ∧
  NoDup [data L; smoothedData L; confirmedPeaks L] ∧
  (∀ r, r ∈ exposed →
        r ≠ Ok (VRef (peakScoreData L)) ∧ r ≠ Ok (VRef (peakData L))) ∧
  is_sequence σ (peakScoreData L) ui "peak_score_data" ∧
  is_sequence σ (peakData L) ui "peak_data" ∧
  is_stage σ (peakDetection L)
    [VRef (peakScores L); VRef (peakScoreData L); VRef (peaks L)] ∧
  is_stage σ (postProcessing L)
    [VRef (peaks L); VRef (peakData L); VRef (confirmedPeaks L)].
Proof.
  intros Hinv exposed.
  destruct (inv_sequences_distinct _ _ _ _ Hinv)
    as (? & ? & ? & ? & ? & ? & ? & ? & ?).
  assert (exposed =
    [ Ok (VRef (data L)); Ok (VRef (smoothedData L));
      Raise (AttributeError "peakyData"); Ok (VRef (confirmedPeaks L)) ])
    as ->.
  { subst exposed.
    unfold Wpd_getRawData, Wpd_getSmoothedData, Wpd_getPeaks,
      Wpd_getPeakyData.
    erewrite (getattr_ok _ _ _ "data" _ (inv_self _ _ _ _ Hinv))
      by attr_lookup.
    erewrite (getattr_ok _ _ _ "smoothedData" _ (inv_self _ _ _ _ Hinv))
      by attr_lookup.
    erewrite (getattr_ok _ _ _ "confirmedPeaks" _ (inv_self _ _ _ _ Hinv))
      by attr_lookup.
    unfold getattr.
    by rewrite (inv_self _ _ _ _ Hinv), Wpd_dict_peakyData,
      peakyData_not_bound. }
  split; [ done | ].
  split.
  { repeat (apply NoDup_cons; split;
            [ rewrite ?elem_of_cons, ?elem_of_nil; tauto | ]).
    apply NoDup_nil_2. }
  split.
  { intros r Hr.
    repeat (apply elem_of_cons in Hr as [ -> | Hr ];
            [ split; congruence | ]).
    by apply elem_of_nil in Hr. }
  by destruct Hinv.
Qed.

(** ** Several pipelines in one store *)







(** X8. A pipeline starts out empty: right after the constructor has
    returned, [getProcessedDataSize()] and [getSteps()] both return 0. *)
Theorem fresh_pipeline_counts σ queue p1 wt p2 ft p3 p4 p5 (ui : Observer)
    wc fc :
  SMOOTHING_WINDOWS !! wt = Some wc →
  PEAKY_FUNCTIONS !! ft = Some fc →
  ∃ σ' self,
    Wpd_new stage_init SMOOTHING_WINDOWS PEAKY_FUNCTIONS
      queue p1 wt p2 ft p3 p4 p5 ui σ
    = (Ok (VRef self), σ') ∧
    fst (Wpd_getProcessedDataSize self σ') = Ok 0 ∧
    fst (Wpd_getSteps self σ') = Ok 0.
Proof.
  intros Hw Hf. do 2 eexists.
  split; [ by apply Wpd_new_exec | ].
  destruct σ as [h t]. cbn [heap trace].
  pose proof (Wpd_objects_inv h (t ++ Wpd_subscriptions
                (Wpd_layout (length h) queue) ui) _ queue
                p1 wc p2 fc p3 p4 p5 ui eq_refl) as Hinv.
  unfold Wpd_getProcessedDataSize, Wpd_getSteps.
  erewrite !bind_ok
    by (eapply getattr_ok; [ apply (inv_self _ _ _ _ Hinv) | attr_lookup ]).
  unfold Queue_size, PlottableList_len.
  cbn [heap Wpd_layout dataQueue confirmedPeaks].
  by rewrite !(lookup_off _ _ _ _ eq_refl).
Qed.

(** ** How far a status question goes *)

Ltac first_workers i Hi E :=
  first
    [ lia
    | let j := fresh "i" in
      destruct i as [ | j ];
      [ first [ lia | cbn in E; injection E as <-; assumption ]
      | first_workers j Hi E ] ].

Ltac asked_cases :=
  cbn [asked];
  repeat first [ rewrite bool_decide_eq_true_2 by done
               | rewrite bool_decide_eq_false_2 by done ];
  cbn.

Ltac last_worker :=
  first [ done | intros _; eexists; split; [ reflexivity | assumption ] ].

(** X9. [isDone()] asks the workers in pipeline order and stops at the
    first that is not done: the workers asked are the first n of the five,
    with n at least 1; all but the last of them report done; when the
    result is [False] the last one asked is a worker that is not done, and
    when it is [True] all five were asked. *)
Theorem Wpd_isDone_short_circuit σ self L (ui : Observer) :
  wpd_inv σ self L ui →
  ∃ r n σ',
    Wpd_isDone stage_isDone self σ = (Ok r, σ') ∧
    trace σ' = trace σ ++ ((λ s, ECall s MIsDone) <$> take n (stages L)) ∧
    (1 ≤ n ≤ 5)%nat ∧
    (∀ i s, (S i < n)%nat → stages L !! i = Some s →
            reports stage_isDone σ s = Some true) ∧
    (r = false →
     ∃ s, stages L !! (n - 1) = Some s ∧
          reports stage_isDone σ s = Some false) ∧
    (r = true → n = 5).
Proof.
  intros Hinv.
  destruct (inv_reports stage_isDone _ _ _ _ Hinv)
    as (r1 & r2 & r3 & r4 & r5 & R1 & R2 & R3 & R4 & R5).
  exists (r1 && r2 && r3 && r4 && r5),
    (length (asked false
               [(preProcessing L, r1); (window L, r2); (peakScorer L, r3);
                (peakDetection L, r4); (postProcessing L, r5)])).
  eexists. split; [ by eapply and_exec | ].
  cbn [trace]. unfold stages.
  destruct r1, r2, r3, r4, r5; asked_cases;
    (split; [ done | ]); (split; [ lia | ]);
    (split; [ intros i s Hi E; first_workers i Hi E | ]);
    (split; last_worker).
Qed.

(** X10. [isRunning()] asks the workers in pipeline order and stops at the
    first that is running: the workers asked are the first n of the five,
    with n at least 1; all but the last of them report not running; when
    the result is [True] the last one asked is a running worker, and when
    it is [False] all five were asked. *)
Theorem Wpd_isRunning_short_circuit σ self L (ui : Observer) :
  wpd_inv σ self L ui →
  ∃ r n σ',
    Wpd_isRunning stage_isRunning self σ = (Ok r, σ') ∧
    trace σ' = trace σ ++ ((λ s, ECall s MIsRunning) <$> take n (stages L)) ∧
    (1 ≤ n ≤ 5)%nat ∧
    (∀ i s, (S i < n)%nat → stages L !! i = Some s →
            reports stage_isRunning σ s = Some false) ∧
    (r = true →
     ∃ s, stages L !! (n - 1) = Some s ∧
          reports stage_isRunning σ s = Some true) ∧
    (r = false → n = 5).
Proof.
  intros Hinv.
  destruct (inv_reports stage_isRunning _ _ _ _ Hinv)
    as (r1 & r2 & r3 & r4 & r5 & R1 & R2 & R3 & R4 & R5).
  exists (r1 || r2 || r3 || r4 || r5),
    (length (asked true
               [(preProcessing L, r1); (window L, r2); (peakScorer L, r3);
                (peakDetection L, r4); (postProcessing L, r5)])).
  eexists. split; [ by eapply or_exec | ].
  cbn [trace]. unfold stages.
  destruct r1, r2, r3, r4, r5; asked_cases;
    (split; [ done | ]); (split; [ lia | ]);
    (split; [ intros i s Hi E; first_workers i Hi E | ]);
    (split; last_worker).
Qed.

(** ** What sequences of calls make of the workers *)

Abbreviation after_call' := (after_call stage_start stage_stop).
Abbreviation after_calls' := (after_calls stage_start stage_stop).

Lemma command_stage name m f σ σ' self L (ui : Observer) s cls p a st :
  wpd_inv σ self L ui →
  (s ← getattr self "preProcessing"; Stage_command name m f s;;
   s ← getattr self "window"; Stage_command name m f s;;
   s ← getattr self "peakScorer"; Stage_command name m f s;;
   s ← getattr self "peakDetection"; Stage_command name m f s;;
   s ← getattr self "postProcessing"; Stage_command name m f s) σ
  = (Ok tt, σ') →
  s ∈ stages L →
  heap σ !! s = Some (OStage cls p a st) →
  heap σ' !! s = Some (OStage cls p a (f cls st)).
Proof.
  intros Hinv Hrun Hs E.
  destruct (broadcast_exec name m f _ _ _ _ Hinv)
    as (σ1 & Hrun1 & _ & Hst & _ & Henv).
  rewrite Hrun in Hrun1. injection Hrun1 as <-.
  destruct (Hst s Hs) as [_ Hafter].
  destruct (env_step_lookup _ _ _ _ Henv E) as ([ | | | ] & E' & Ho);
    cbn in Ho; try done.
  destruct Ho as (<- & <- & <-).
  unfold stage_state, stage_after in Hafter. rewrite E, E' in Hafter.
  by injection Hafter as ->.
Qed.

Lemma do_call_stage σ self L (ui : Observer) c s cls p a st :
  wpd_inv σ self L ui →
  s ∈ stages L →
  heap σ !! s = Some (OStage cls p a st) →
  heap (do_call' self c σ) !! s
  = Some (OStage cls p a (after_call' cls c st)).
Proof.
  intros Hinv Hs E. destruct c; cbn [do_call after_call].
  - destruct (broadcast_exec "start" MStart stage_start _ _ _ _ Hinv)
      as (σ1 & Hrun & _).
    unfold Wpd_start, Stage_start. rewrite Hrun. cbn [snd].
    by eapply (command_stage "start" MStart stage_start).
  - destruct (broadcast_exec "stop" MStop stage_stop _ _ _ _ Hinv)
      as (σ1 & Hrun & _).
    unfold Wpd_stop, Stage_stop. rewrite Hrun. cbn [snd].
    by eapply (command_stage "stop" MStop stage_stop).
  - destruct (inv_reports stage_isDone _ _ _ _ Hinv)
      as (r1 & r2 & r3 & r4 & r5 & R1 & R2 & R3 & R4 & R5).
    unfold Wpd_isDone, Stage_isDone. by erewrite and_exec.
  - destruct (inv_reports stage_isRunning _ _ _ _ Hinv)
      as (r1 & r2 & r3 & r4 & r5 & R1 & R2 & R3 & R4 & R5).
    unfold Wpd_isRunning, Stage_isRunning. by erewrite or_exec.
Qed.

(** X11. After any sequence of [start()], [stop()], [isDone()] and
    [isRunning()] calls on a pipeline, each of its workers is the same
    worker, wired as before, in the state that the [start()] and [stop()]
    calls of the sequence, passed on one by one and in order, make of its
    state; the two questions do not change it. *)
Theorem workers_after_calls σ self L (ui : Observer) cs s cls p a st :
  wpd_inv σ self L ui →
  s ∈ stages L →
  heap σ !! s = Some (OStage cls p a st) →
  heap (do_calls' self cs σ) !! s
  = Some (OStage cls p a (after_calls' cls cs st)).
Proof.
  revert σ st. induction cs as [ | c cs IH ]; intros σ st Hinv Hs E.
  - done.
  - cbn [do_calls after_calls foldl].
    apply IH; [ by apply do_call_framed | done | ].
    by eapply do_call_stage.
Qed.

(** ** The life of a pipeline *)


(** ** The commands a sequence of calls sends *)

Lemma filter_commands_queries (m : Method) (l : list loc) :
  is_command m = false →
  filter (λ e : Event, is_command (method e)) ((λ s, ECall s m) <$> l) = [].
Proof.
  intros Hm. induction l as [ | s l IH ]; [ done | ].
  rewrite fmap_cons, filter_cons_False; [ exact IH | ].
  cbn [method]. rewrite Hm. by intros [].
Qed.

Lemma filter_commands_to_each (m : Method) L :
  is_command m = true →
  filter (λ e : Event, is_command (method e)) (to_each m L) = to_each m L.
Proof.
  intros Hm. unfold to_each.
  repeat (rewrite filter_cons_True by (cbn [method]; by rewrite Hm)).
  done.
Qed.

Lemma do_call_commands σ self L (ui : Observer) c :
  wpd_inv σ self L ui →
  ∃ new,
    trace (do_call' self c σ) = trace σ ++ new ∧
    filter (λ e : Event, is_command (method e)) new = command_events L c.
Proof.
  intros Hinv. destruct c; cbn [do_call command_events].
  - destruct (broadcast_exec "start" MStart stage_start _ _ _ _ Hinv)
      as (σ1 & Hrun & Htr & _).
    unfold Wpd_start, Stage_start. rewrite Hrun. cbn [snd].
    eexists. split; [ exact Htr | ]. by apply filter_commands_to_each.
  - destruct (broadcast_exec "stop" MStop stage_stop _ _ _ _ Hinv)
      as (σ1 & Hrun & Htr & _).
    unfold Wpd_stop, Stage_stop. rewrite Hrun. cbn [snd].
    eexists. split; [ exact Htr | ]. by apply filter_commands_to_each.
  - destruct (inv_reports stage_isDone _ _ _ _ Hinv)
      as (r1 & r2 & r3 & r4 & r5 & R1 & R2 & R3 & R4 & R5).
    unfold Wpd_isDone, Stage_isDone. erewrite and_exec by done.
    cbn [snd trace]. eexists. split; [ done | ].
    by apply filter_commands_queries.
  - destruct (inv_reports stage_isRunning _ _ _ _ Hinv)
      as (r1 & r2 & r3 & r4 & r5 & R1 & R2 & R3 & R4 & R5).
    unfold Wpd_isRunning, Stage_isRunning. erewrite or_exec by done.
    cbn [snd trace]. eexists. split; [ done | ].
    by apply filter_commands_queries.
Qed.

(** X13. In any sequence of lifecycle calls the commands reach the workers
    call by call: each [start()] and each [stop()] sends its five requests
    in pipeline order before the next call sends any, in the order in
    which the calls were made, and [isDone()] and [isRunning()] send
    none. *)
Theorem commands_in_call_order σ self L (ui : Observer) cs :
  wpd_inv σ self L ui →
  ∃ new,
    trace (do_calls' self cs σ) = trace σ ++ new ∧
    filter (λ e : Event, is_command (method e)) new
    = concat (command_events L <$> cs).
Proof.
  revert σ. induction cs as [ | c cs IH ]; intros σ Hinv.
  - exists []. by rewrite (right_id_L [] (++)).
  - destruct (do_call_commands _ _ _ _ c Hinv) as (new1 & Htr1 & Hf1).
    destruct (IH _ (proj1 (do_call_framed _ _ _ _ c Hinv)))
      as (new2 & Htr2 & Hf2).
    exists (new1 ++ new2). cbn [do_calls foldl fmap list_fmap concat].
    split.
    + unfold do_calls in Htr2. by rewrite Htr2, Htr1, (assoc_L (++)).
    + by rewrite filter_app, Hf1, Hf2.
Qed.

End Facts.

(** * The facts at work on a concrete pipeline *)

Import Lifecycle.

(** ** The example pipeline, run *)

Example construct_returns :
  fst (construct world0) = Ok (VRef 1).
Proof. vm_compute. reflexivity. Qed.

Example construct_unknown_window :
  fst (Wpd_new init windows scorers (VRef 0) tt "hann" tt "mean_diff"
         tt tt tt "ui" world0)
  = Raise (KeyError "hann").
Proof. vm_compute. reflexivity. Qed.

Example not_done_not_running_before_start :
  fst (Wpd_isDone isDone 1 world1) = Ok false ∧
  fst (Wpd_isRunning isRunning 1 world1) = Ok false.
Proof. split; vm_compute; reflexivity. Qed.

Example stop_before_start :
  let σ := snd (Wpd_stop stop 1 world1) in
  fst (Wpd_isDone isDone 1 σ) = Ok false ∧
  fst (Wpd_isRunning isRunning 1 σ) = Ok false.
Proof. split; vm_compute; reflexivity. Qed.

Example running_after_start :
  fst (Wpd_isRunning isRunning 1 world2) = Ok true ∧
  trace (snd (Wpd_isRunning isRunning 1 world2))
  = trace world2 ++ [ECall 11 MIsRunning].
Proof. split; vm_compute; reflexivity. Qed.

Example stop_does_not_wait :
  let σ := snd (Wpd_stop stop 1 world3) in
  fst (Wpd_stop stop 1 world3) = Ok tt ∧
  fst (Wpd_isDone isDone 1 σ) = Ok false.
Proof. split; vm_compute; reflexivity. Qed.

Example two_items_waiting :
  fst (Wpd_getProcessedDataSize 1 world3) = Ok 2.
Proof. vm_compute. reflexivity. Qed.

Example one_step_counted :
  fst (Wpd_getSteps 1 world3) = Ok 1 ∧
  fst (Wpd_getPeaks 1 world3) = Ok (VRef 10).
Proof. split; vm_compute; reflexivity. Qed.

Example getPeakyData_fails :
  fst (Wpd_getPeakyData 1 world1)
  = Raise (AttributeError "peakyData").
Proof. vm_compute. reflexivity. Qed.

(** ** Quiescence under the concrete lifecycle *)

Lemma Lifecycle_not_running c s :
  done s = true ∨ status s ≠ Running →
  isRunning c s = false.
Proof.
  unfold isRunning.
  destruct s as [ [ | | | ] d ]; cbn; intros [ -> | H ]; done.
Qed.

(** When each of the five workers is done or is not in its running state
    (idle, stopping or stopped), [isRunning()] returns [False]. *)
Lemma Wpd_isRunning_quiescent {Item Params Observer : Type}
    (σ : @World Item Params Observer State) self L ui :
  wpd_inv σ self L ui →
  (∀ s st, s ∈ stages L → stage_state σ s = Some st →
           done st = true ∨ status st ≠ Running) →
  fst (Wpd_isRunning isRunning self σ) = Ok false.
Proof.
  intros Hinv Hq.
  assert (∀ s r, s ∈ stages L → reports isRunning σ s = Some r → r = false)
    as Hr.
  { intros s r Hs. specialize (Hq s). unfold reports, stage_state in *.
    destruct (heap σ !! s) as [ [ | | cls p a st | ] | ]; try done.
    intros [= <-]. apply Lifecycle_not_running. by apply Hq. }
  destruct (inv_reports isRunning _ _ _ _ Hinv)
    as (r1 & r2 & r3 & r4 & r5 & R1 & R2 & R3 & R4 & R5).
  unfold Wpd_isRunning, Stage_isRunning.
  erewrite or_exec by done. cbn [fst]. unfold stages in Hr.
  apply Hr in R1 as ->; [ | repeat first [ by left | right ] ].
  apply Hr in R2 as ->; [ | repeat first [ by left | right ] ].
  apply Hr in R3 as ->; [ | repeat first [ by left | right ] ].
  apply Hr in R4 as ->; [ | repeat first [ by left | right ] ].
  apply Hr in R5 as ->; [ | repeat first [ by left | right ] ].
  done.
Qed.

(** ** Instances of the claims

    Each fact above that has a premise, applied to the example pipeline. *)

Ltac concrete_inv :=
  constructor;
  first
    [ vm_compute; reflexivity
    | eexists; vm_compute; reflexivity
    | do 2 eexists; split; [ vm_compute; reflexivity | by left ]
    | do 3 eexists; vm_compute; reflexivity
    | vm_compute; exact (NoDup_seq 1 15) ].

(** On a pipeline that has just been constructed. *)
Lemma Wpd_isDone_conjunction_witness :
  (wpd_inv world1 1 layout1 "ui") ∧
  (∃ r1 r2 r3 r4 r5 σ',
    reports isDone world1 (preProcessing layout1) = Some r1 ∧
    reports isDone world1 (window layout1) = Some r2 ∧
    reports isDone world1 (peakScorer layout1) = Some r3 ∧
    reports isDone world1 (peakDetection layout1) = Some r4 ∧
    reports isDone world1 (postProcessing layout1) = Some r5 ∧
    Wpd_isDone isDone 1 world1
    = (Ok (r1 && r2 && r3 && r4 && r5), σ') ∧
    (r1 && r2 && r3 && r4 && r5 = true ↔
     r1 = true ∧ r2 = true ∧ r3 = true ∧ r4 = true ∧ r5 = true) ∧
    heap σ' = heap world1 ∧
    trace σ' = trace world1 ++
      ((λ s, ECall s MIsDone) <$>
       asked false
         [(preProcessing layout1, r1); (window layout1, r2); (peakScorer
             layout1, r3);
          (peakDetection layout1, r4); (postProcessing layout1, r5)])).
Proof.
  split; [ concrete_inv | ].
  apply
    (Wpd_isDone_conjunction isDone world1 1 layout1 "ui").
  concrete_inv.
Defined.

(** On a pipeline that has been started. *)
Lemma Wpd_isRunning_disjunction_witness :
  (wpd_inv world2 1 layout1 "ui") ∧
  (∃ r1 r2 r3 r4 r5 σ',
    reports isRunning world2 (preProcessing layout1) = Some r1 ∧
    reports isRunning world2 (window layout1) = Some r2 ∧
    reports isRunning world2 (peakScorer layout1) = Some r3 ∧
    reports isRunning world2 (peakDetection layout1) = Some r4 ∧
    reports isRunning world2 (postProcessing layout1) = Some r5 ∧
    Wpd_isRunning isRunning 1 world2
    = (Ok (r1 || r2 || r3 || r4 || r5), σ') ∧
    (r1 || r2 || r3 || r4 || r5 = true ↔
     r1 = true ∨ r2 = true ∨ r3 = true ∨ r4 = true ∨ r5 = true) ∧
    (r1 = false ∧ r2 = false ∧ r3 = false ∧ r4 = false ∧ r5 = false →
     r1 || r2 || r3 || r4 || r5 = false) ∧
    heap σ' = heap world2 ∧
    trace σ' = trace world2 ++
      ((λ s, ECall s MIsRunning) <$>
       asked true
         [(preProcessing layout1, r1); (window layout1, r2); (peakScorer
             layout1, r3);
          (peakDetection layout1, r4); (postProcessing layout1, r5)])).
Proof.
  split; [ concrete_inv | ].
  apply
    (Wpd_isRunning_disjunction isRunning world2 1 layout1 "ui").
  concrete_inv.
Defined.

(** Constructing a pipeline on the input queue of the example store. *)
Lemma Wpd_new_wiring_witness :
  (windows !! "centered_moving_avg" = Some (Registered "CenteredMovingAvg")) ∧
  (scorers !! "mean_diff" = Some (Registered "MeanDiff")) ∧
  (∃ σ' L,
    Wpd_new init windows scorers
      (VRef 0) tt "centered_moving_avg" tt "mean_diff" tt tt tt "ui" world0
    = (Ok (VRef (length (heap world0))), σ') ∧
    L = Wpd_layout (length (heap world0)) (VRef 0) ∧
    heap σ' = heap world0 ++ Wpd_objects init L tt (Registered
        "CenteredMovingAvg") tt (Registered "MeanDiff") tt tt tt "ui" ∧
    (∀ s, created world0 σ' KQueue s ↔ s ∈ queues L) ∧
    NoDup (queues L) ∧ length (queues L) = 4 ∧
    (∀ s, created world0 σ' KSequence s ↔ s ∈ sequences L) ∧
    NoDup (sequences L) ∧ length (sequences L) = 5 ∧
    (∀ s, created world0 σ' KStage s ↔ s ∈ stages L) ∧
    NoDup (stages L) ∧ length (stages L) = 5 ∧
    inputQueue L = (VRef 0) ∧
    in_pipeline_order σ' L ∧
    is_sequence σ' (confirmedPeaks L) "ui" "confirmed_peak_data" ∧
    stage_class σ' (preProcessing L) = Some WpdPreProcessor ∧
    stage_class σ' (window L) = Some (Registered "CenteredMovingAvg") ∧
    stage_class σ' (peakScorer L) = Some (Registered "MeanDiff") ∧
    stage_class σ' (peakDetection L) = Some PeakDetector ∧
    stage_class σ' (postProcessing L) = Some WpdPostProcessor).
Proof.
  split; [ reflexivity | ]. split; [ reflexivity | ].
  by apply
    (Wpd_new_wiring init windows scorers world0 (VRef 0) tt
      "centered_moving_avg" tt "mean_diff" tt tt tt "ui" (Registered
      "CenteredMovingAvg") (Registered "MeanDiff")).
Defined.

(** Constructing a pipeline on the input queue of the example store. *)
Lemma Wpd_new_subscriptions_witness :
  (windows !! "centered_moving_avg" = Some (Registered "CenteredMovingAvg")) ∧
  (scorers !! "mean_diff" = Some (Registered "MeanDiff")) ∧
  (∃ σ' L,
    Wpd_new init windows scorers
      (VRef 0) tt "centered_moving_avg" tt "mean_diff" tt tt tt "ui" world0
    = (Ok (VRef (length (heap world0))), σ') ∧
    L = Wpd_layout (length (heap world0)) (VRef 0) ∧
    trace σ' = trace world0 ++
      [ ECall (data L) (MSubscribe "ui" "raw_data");
        ECall (smoothedData L) (MSubscribe "ui" "smooth_data");
        ECall (peakScoreData L) (MSubscribe "ui" "peak_score_data");
        ECall (peakData L) (MSubscribe "ui" "peak_data");
        ECall (confirmedPeaks L) (MSubscribe "ui" "confirmed_peak_data") ] ∧
    NoDup (sequences L) ∧
    (∀ s, created world0 σ' KSequence s ↔ s ∈ sequences L) ∧
    heap σ' !! data L = Some (OPlottableList [] [("ui", "raw_data")]) ∧
    heap σ' !! smoothedData L
    = Some (OPlottableList [] [("ui", "smooth_data")]) ∧
    heap σ' !! peakScoreData L
    = Some (OPlottableList [] [("ui", "peak_score_data")]) ∧
    heap σ' !! peakData L = Some (OPlottableList [] [("ui", "peak_data")]) ∧
    heap σ' !! confirmedPeaks L
    = Some (OPlottableList [] [("ui", "confirmed_peak_data")]) ∧
    (∀ s o, heap world0 !! s = Some o → heap σ' !! s = Some o)).
Proof.
  split; [ reflexivity | ]. split; [ reflexivity | ].
  by apply
    (Wpd_new_subscriptions init windows scorers world0 (VRef 0) tt
      "centered_moving_avg" tt "mean_diff" tt tt tt "ui" (Registered
      "CenteredMovingAvg") (Registered "MeanDiff")).
Defined.

(** On a running pipeline with two items waiting in [dataQueue]. *)
Lemma Wpd_getProcessedDataSize_dataQueue_witness :
  (wpd_inv world3 1 layout1 "ui") ∧
  (∃ items,
    heap world3 !! dataQueue layout1 = Some (OQueue items) ∧
    Wpd_getProcessedDataSize 1 world3
    = (Ok (length items),
       mkWorld (heap world3) (trace world3 ++ [ECall (dataQueue layout1)
           MSize])) ∧
    stage_output world3 (preProcessing layout1) = Some (VRef (dataQueue
        layout1)) ∧
    stage_input world3 (window layout1) = Some (VRef (dataQueue layout1))).
Proof.
  split; [ concrete_inv | ].
  apply
    (Wpd_getProcessedDataSize_dataQueue world3 1 layout1 "ui").
  concrete_inv.
Defined.

(** On a running pipeline with one confirmed peak. *)
Lemma Wpd_getSteps_confirmedPeaks_witness :
  (wpd_inv world3 1 layout1 "ui") ∧
  (∃ items subs,
    heap world3 !! confirmedPeaks layout1 = Some (OPlottableList items subs) ∧
    ("ui", "confirmed_peak_data") ∈ subs ∧
    Wpd_getPeaks 1 world3 = (Ok (VRef (confirmedPeaks layout1)), world3) ∧
    Wpd_getSteps 1 world3
    = (Ok (length items),
       mkWorld (heap world3) (trace world3 ++ [ECall (confirmedPeaks layout1)
           MLen])) ∧
    (Wpd_getPeaks 1 ≫= PlottableList_len) world3 = Wpd_getSteps 1 world3 ∧
    confirmedPeaks layout1 ≠ peakData layout1 ∧
    confirmedPeaks layout1 ≠ peaks layout1 ∧
    stage_output world3 (postProcessing layout1) = Some (VRef (confirmedPeaks
        layout1))).
Proof.
  split; [ concrete_inv | ].
  apply
    (Wpd_getSteps_confirmedPeaks world3 1 layout1 "ui").
  concrete_inv.
Defined.

(** On a pipeline that has just been constructed. *)
Lemma Wpd_getPeakyData_raises_witness :
  (wpd_inv world1 1 layout1 "ui") ∧
  (Wpd_getPeakyData 1 world1 = (Raise (AttributeError "peakyData"), world1) ∧
  Wpd_dict layout1 !! "peakyData" = None ∧
  ("peakyData" ∉ Wpd_methods) ∧
  Wpd_dict layout1 !! "peakScoreData" = Some (VRef (peakScoreData layout1)) ∧
  fst (Wpd_getPeakyData 1 world1) ≠ Ok (VRef (peakScoreData layout1))).
Proof.
  split; [ concrete_inv | ].
  apply
    (Wpd_getPeakyData_raises world1 1 layout1 "ui").
  concrete_inv.
Defined.

(** On a pipeline that has just been constructed. *)
Lemma Wpd_start_each_once_in_order_witness :
  (wpd_inv world1 1 layout1 "ui") ∧
  (∃ σ1 σ2,
    Wpd_start start 1 world1 = (Ok tt, σ1) ∧
    trace σ1 = trace world1 ++ to_each MStart layout1 ∧
    NoDup (stages layout1) ∧
    in_pipeline_order world1 layout1 ∧
    (∀ s, s ∈ stages layout1 →
          is_Some (stage_state σ1 s) ∧
          stage_state σ1 s = stage_after start world1 s) ∧
    (∀ s, s ∉ stages layout1 → heap σ1 !! s = heap world1 !! s) ∧
    Wpd_start start 1 σ1 = (Ok tt, σ2) ∧
    trace σ2 = trace world1 ++ to_each MStart layout1 ++ to_each MStart
        layout1 ∧
    (∀ s, s ∈ stages layout1 →
          stage_state σ2 s = stage_after start σ1 s)).
Proof.
  split; [ concrete_inv | ].
  apply
    (Wpd_start_each_once_in_order start world1 1 layout1 "ui").
  concrete_inv.
Defined.

(** On a running pipeline with work in flight. *)
Lemma Wpd_stop_each_once_witness :
  (wpd_inv world3 1 layout1 "ui") ∧
  (∃ σ',
    Wpd_stop stop 1 world3 = (Ok tt, σ') ∧
    trace σ' = trace world3 ++ to_each MStop layout1 ∧
    NoDup (stages layout1) ∧
    (∀ e, e ∈ drop (length (trace world3)) (trace σ') → method e = MStop) ∧
    (∀ s, s ∈ stages layout1 →
          is_Some (stage_state σ' s) ∧
          stage_state σ' s = stage_after stop world3 s) ∧
    (∀ s, s ∉ stages layout1 → heap σ' !! s = heap world3 !! s)).
Proof.
  split; [ concrete_inv | ].
  apply
    (Wpd_stop_each_once stop world3 1 layout1 "ui").
  concrete_inv.
Defined.

(** On a running pipeline, for one sequence of five calls. *)
Lemma lifecycle_calls_frame_witness :
  (wpd_inv world3 1 layout1 "ui") ∧
  (let σ' := do_calls start stop isDone isRunning 1 [CStart; CIsRunning;
      CStop; CIsDone; CStop] world3 in
  heap σ' !! 1 = heap world3 !! 1 ∧
  (∀ s, s ∉ stages layout1 → heap σ' !! s = heap world3 !! s) ∧
  (∃ new, trace σ' = trace world3 ++ new ∧
          Forall (λ e, target e ∈ stages layout1) new) ∧
  Wpd_getRawData 1 world3 = (Ok (VRef (data layout1)), world3) ∧
  Wpd_getRawData 1 σ' = (Ok (VRef (data layout1)), σ') ∧
  Wpd_getSmoothedData 1 world3 = (Ok (VRef (smoothedData layout1)), world3) ∧
  Wpd_getSmoothedData 1 σ' = (Ok (VRef (smoothedData layout1)), σ') ∧
  Wpd_getPeaks 1 world3 = (Ok (VRef (confirmedPeaks layout1)), world3) ∧
  Wpd_getPeaks 1 σ' = (Ok (VRef (confirmedPeaks layout1)), σ') ∧
  ∃ items,
    heap world3 !! dataQueue layout1 = Some (OQueue items) ∧
    heap σ' !! dataQueue layout1 = Some (OQueue items) ∧
    fst (Wpd_getProcessedDataSize 1 world3) = Ok (length items) ∧
    fst (Wpd_getProcessedDataSize 1 σ') = Ok (length items)).
Proof.
  split; [ concrete_inv | ].
  apply
    (lifecycle_calls_frame start stop isDone isRunning world3 1 layout1 "ui"
      [CStart; CIsRunning; CStop; CIsDone; CStop]).
  concrete_inv.
Defined.

(** ** Instances of the further facts *)

Ltac concrete_inv' :=
  constructor;
  first
    [ vm_compute; reflexivity
    | eexists; vm_compute; reflexivity
    | do 2 eexists; split; [ vm_compute; reflexivity | by left ]
    | do 3 eexists; vm_compute; reflexivity
    | by apply (bool_decide_unpack _) ].


Ltac concrete_member := by apply (bool_decide_unpack _).


(** A window type the example registry does not hold. *)
Lemma Wpd_new_unregistered_window_witness :
  (windows !! "hann" = None) ∧
  (∃ σ' L,
    L = Wpd_layout (length (heap world0)) (VRef 0) ∧
    Wpd_new init windows scorers
      (VRef 0) tt "hann" tt "mean_diff" tt tt tt "ui" world0
    = (Raise (KeyError "hann"), σ') ∧
    heap σ' = heap world0 ++
      Wpd_partial L "ui"
        [ new_stage init WpdPreProcessor tt
            [(VRef 0); VRef (data L); VRef (dataQueue L)] ] ∧
    trace σ' = trace world0 ++ Wpd_subscriptions L "ui" ∧
    (∀ s, created world0 σ' KQueue s ↔ s ∈ queues L) ∧
    (∀ s, created world0 σ' KSequence s ↔ s ∈ sequences L) ∧
    (∀ s, created world0 σ' KStage s ↔ s = preProcessing L) ∧
    (∀ s o, heap world0 !! s = Some o → heap σ' !! s = Some o) ∧
    (∀ other L' ui', wpd_inv world0 other L' ui' → wpd_inv σ' other L' ui')).
Proof.
  split; [ vm_compute; reflexivity | ].
  apply
    (Wpd_new_unregistered_window init windows scorers world0 (VRef 0) tt
      "hann" tt "mean_diff" tt tt tt "ui");
    [ vm_compute; reflexivity ].
Defined.

(** A scoring type the example registry does not hold. *)
Lemma Wpd_new_unregistered_scorer_witness :
  (windows !! "centered_moving_avg" = Some (Registered "CenteredMovingAvg")) ∧
  (scorers !! "max_diff" = None) ∧
  (∃ σ' L,
    L = Wpd_layout (length (heap world0)) (VRef 0) ∧
    Wpd_new init windows scorers
      (VRef 0) tt "centered_moving_avg" tt "max_diff" tt tt tt "ui" world0
    = (Raise (KeyError "max_diff"), σ') ∧
    heap σ' = heap world0 ++
      Wpd_partial L "ui"
        [ new_stage init WpdPreProcessor tt
            [(VRef 0); VRef (data L); VRef (dataQueue L)];
          new_stage init (Registered "CenteredMovingAvg") tt
            [VRef (dataQueue L); VRef (smoothedDataQueue L)] ] ∧
    trace σ' = trace world0 ++ Wpd_subscriptions L "ui" ∧
    (∀ s, created world0 σ' KStage s ↔ s = preProcessing L ∨ s = window L) ∧
    (∀ s o, heap world0 !! s = Some o → heap σ' !! s = Some o) ∧
    (∀ other L' ui', wpd_inv world0 other L' ui' → wpd_inv σ' other L' ui')).
Proof.
  split; [ vm_compute; reflexivity | ].
  split; [ vm_compute; reflexivity | ].
  apply
    (Wpd_new_unregistered_scorer init windows scorers world0 (VRef 0) tt
      "centered_moving_avg" tt "max_diff" tt tt tt "ui" (Registered
      "CenteredMovingAvg"));
    [ vm_compute; reflexivity | vm_compute; reflexivity ].
Defined.


(** On the running example pipeline. *)
Lemma Wpd_getters_expose_witness :
  (wpd_inv world3 1 layout1 "ui") ∧
  (let exposed :=
    [ fst (Wpd_getRawData 1 world3); fst (Wpd_getSmoothedData 1 world3);
      fst (Wpd_getPeakyData 1 world3); fst (Wpd_getPeaks 1 world3) ] in
  exposed =
    [ Ok (VRef (data layout1)); Ok (VRef (smoothedData layout1));
      Raise (AttributeError "peakyData"); Ok (VRef (confirmedPeaks layout1))
          ] ∧
  NoDup [data layout1; smoothedData layout1; confirmedPeaks layout1] ∧
  (∀ r, r ∈ exposed →
        r ≠ Ok (VRef (peakScoreData layout1)) ∧ r ≠ Ok (VRef (peakData
            layout1))) ∧
  is_sequence world3 (peakScoreData layout1) "ui" "peak_score_data" ∧
  is_sequence world3 (peakData layout1) "ui" "peak_data" ∧
  is_stage world3 (peakDetection layout1)
    [VRef (peakScores layout1); VRef (peakScoreData layout1); VRef (peaks
        layout1)] ∧
  is_stage world3 (postProcessing layout1)
    [VRef (peaks layout1); VRef (peakData layout1); VRef (confirmedPeaks
        layout1)]).
Proof.
  split; [ concrete_inv' | ].
  apply
    (Wpd_getters_expose world3 1 layout1 "ui");
    [ concrete_inv' ].
Defined.



(** The example pipeline, just constructed. *)
Lemma fresh_pipeline_counts_witness :
  (windows !! "centered_moving_avg" = Some (Registered "CenteredMovingAvg")) ∧
  (scorers !! "mean_diff" = Some (Registered "MeanDiff")) ∧
  (∃ σ' self,
    Wpd_new init windows scorers
      (VRef 0) tt "centered_moving_avg" tt "mean_diff" tt tt tt "ui" world0
    = (Ok (VRef self), σ') ∧
    fst (Wpd_getProcessedDataSize self σ') = Ok 0 ∧
    fst (Wpd_getSteps self σ') = Ok 0).
Proof.
  split; [ vm_compute; reflexivity | ].
  split; [ vm_compute; reflexivity | ].
  apply
    (fresh_pipeline_counts init windows scorers world0 (VRef 0) tt
      "centered_moving_avg" tt "mean_diff" tt tt tt "ui" (Registered
      "CenteredMovingAvg") (Registered "MeanDiff"));
    [ vm_compute; reflexivity | vm_compute; reflexivity ].
Defined.

(** On the started example pipeline, where no worker is done. *)
Lemma Wpd_isDone_short_circuit_witness :
  (wpd_inv world2 1 layout1 "ui") ∧
  (∃ r n σ',
    Wpd_isDone isDone 1 world2 = (Ok r, σ') ∧
    trace σ' = trace world2 ++ ((λ s, ECall s MIsDone) <$> take n (stages
        layout1)) ∧
    (1 ≤ n ≤ 5)%nat ∧
    (∀ i s, (S i < n)%nat → stages layout1 !! i = Some s →
            reports isDone world2 s = Some true) ∧
    (r = false →
     ∃ s, stages layout1 !! (n - 1) = Some s ∧
          reports isDone world2 s = Some false) ∧
    (r = true → n = 5)).
Proof.
  split; [ concrete_inv' | ].
  apply
    (Wpd_isDone_short_circuit isDone world2 1 layout1 "ui");
    [ concrete_inv' ].
Defined.

(** On the started example pipeline, where every worker runs. *)
Lemma Wpd_isRunning_short_circuit_witness :
  (wpd_inv world2 1 layout1 "ui") ∧
  (∃ r n σ',
    Wpd_isRunning isRunning 1 world2 = (Ok r, σ') ∧
    trace σ' = trace world2 ++ ((λ s, ECall s MIsRunning) <$> take n (stages
        layout1)) ∧
    (1 ≤ n ≤ 5)%nat ∧
    (∀ i s, (S i < n)%nat → stages layout1 !! i = Some s →
            reports isRunning world2 s = Some false) ∧
    (r = true →
     ∃ s, stages layout1 !! (n - 1) = Some s ∧
          reports isRunning world2 s = Some true) ∧
    (r = false → n = 5)).
Proof.
  split; [ concrete_inv' | ].
  apply
    (Wpd_isRunning_short_circuit isRunning world2 1 layout1 "ui");
    [ concrete_inv' ].
Defined.

(** The PreProcessor of the example pipeline. *)
Lemma workers_after_calls_witness :
  (wpd_inv world1 1 layout1 "ui") ∧
  (11 ∈ stages layout1) ∧
  (heap world1 !! 11 = Some (OStage WpdPreProcessor tt [VRef 0; VRef 6; VRef
      2] (mkState Idle false))) ∧
  (heap (do_calls start stop isDone isRunning 1 [CStart; CIsDone; CStop]
      world1) !! 11
  = Some (OStage WpdPreProcessor tt [VRef 0; VRef 6; VRef 2] (after_calls
      start stop WpdPreProcessor [CStart; CIsDone; CStop] (mkState Idle
          false)))).
Proof.
  split; [ concrete_inv' | ].
  split; [ concrete_member | ].
  split; [ vm_compute; reflexivity | ].
  apply
    (workers_after_calls start stop isDone isRunning world1 1 layout1 "ui"
      [CStart; CIsDone; CStop] 11 WpdPreProcessor tt [VRef 0; VRef 6; VRef 2]
      (mkState Idle false));
    [ concrete_inv' | concrete_member | vm_compute; reflexivity ].
Defined.


(** Three calls on the example pipeline. *)
Lemma commands_in_call_order_witness :
  (wpd_inv world1 1 layout1 "ui") ∧
  (∃ new,
    trace (do_calls start stop isDone isRunning 1 [CStart; CIsDone; CStop]
        world1) = trace world1 ++ new ∧
    filter (λ e : Event, is_command (method e)) new
    = concat (command_events layout1 <$> [CStart; CIsDone; CStop])).
Proof.
  split; [ concrete_inv' | ].
  apply
    (commands_in_call_order start stop isDone isRunning world1 1 layout1 "ui"
      [CStart; CIsDone; CStop]);
    [ concrete_inv' ].
Defined.
